(** * Financial Document Analyzer: the job-processing core

    A shallow embedding of the Python sources

      - [tools.py]        the PDF text extractor [read_financial_document],
      - [database.py]     the [JobStatus] constants and the [AnalysisJob] row,
      - [celery_tasks.py] the worker task [run_analysis_task],
      - [main.py]         the endpoints [analyze_sync], [analyze_async] and
                          [get_analysis_result],

    followed by the properties of the job state machine, of the temporary
    file's cleanup and of the request validation.

    Conventions.  A Python [str] is a Rocq [string]; a character stands for
    the code point of the same number (0..255).  The things the program
    cannot decide by itself -- what the crew answers, whether the store, the
    queue or the file system refuse a call -- are given to each operation as
    an explicit environment record, one field per call site, so that every
    statement quantified over the record covers every behaviour of the
    surroundings.  The columns [created_at] and [updated_at] are left out:
    no operation below reads them. *)

From Stdlib Require Import Ascii String NArith Lia.
From stdpp Require Import base strings gmap list pretty.

(** ** Python values the sources rely on *)

Module Py.

(** The exception classes that the handlers of the sources tell apart:
    [except OSError], [except Exception], and what neither catches. *)
Inductive exc : Type :=
| BaseExc (msg : string)          (* a BaseException outside Exception *)
| Exc (msg : string)              (* an Exception that is no OSError *)
| OSErr (msg : string)            (* OSError and its subclasses *)
| HTTPException (status_code : nat) (detail : string).

Definition is_Exception (e : exc) : bool :=
  match e with BaseExc _ => false | _ => true end.

Definition is_OSError (e : exc) : bool :=
  match e with OSErr _ => true | _ => false end.

(** [str(e)] *)
Definition str (e : exc) : string :=
  match e with
  | BaseExc msg | Exc msg | OSErr msg => msg
  | HTTPException code detail => pretty code +:+ ": " +:+ detail
  end.

Inductive outcome (A : Type) : Type :=
| Ret (a : A)
| Raise (e : exc).
Arguments Ret {A} a.
Arguments Raise {A} e.

(** *** Strings *)

Definition NL : ascii := "010"%char.
Definition nl : string := String NL "".

Definition is_nl (c : ascii) : bool := bool_decide (c = NL).

(** truth value of a [str]: the empty string is falsy *)
Definition truthy (s : string) : bool :=
  match s with "" => false | _ => true end.

(** [a or b] on strings *)
Definition str_or (a b : string) : string := if truthy a then a else b.

(** [o or b] where [o] may be [None] *)
Definition opt_or (o : option string) (b : string) : string :=
  match o with Some a => str_or a b | None => b end.

(** [c.isspace()] for the code points below 256 *)
Definition isspace (c : ascii) : bool :=
  let n := N_of_ascii c in
  ((9 <=? n) && (n <=? 13) || (28 <=? n) && (n <=? 32)
   || (n =? 133) || (n =? 160))%N.

Fixpoint lstrip (s : string) : string :=
  match s with
  | String c r => if isspace c then lstrip r else s
  | "" => ""
  end.

Fixpoint rstrip (s : string) : string :=
  match s with
  | String c r =>
      let r' := rstrip r in
      if negb (truthy r') && isspace c then "" else String c r'
  | "" => ""
  end.

(** [s.strip()] *)
Definition strip (s : string) : string := rstrip (lstrip s).

(** every character of [s] satisfies [p] *)
Fixpoint all_chars (p : ascii → bool) (s : string) : bool :=
  match s with String c r => p c && all_chars p r | "" => true end.

(** [c.lower()] for the code points below 256 *)
Definition lower_char (c : ascii) : ascii :=
  let n := N_of_ascii c in
  if ((65 <=? n) && (n <=? 90) || (192 <=? n) && (n <=? 214)
      || (216 <=? n) && (n <=? 222))%N
  then ascii_of_N (n + 32) else c.

Fixpoint lower (s : string) : string :=
  match s with
  | String c r => String (lower_char c) (lower r)
  | "" => ""
  end.

(** [s.endswith(suffix)]: some tail of [s] is [suffix] *)
Fixpoint endswith (s suffix : string) : bool :=
  bool_decide (s = suffix)
  || match s with String _ r => endswith r suffix | "" => false end.

(** [s.startswith("/")] *)
Definition is_abs (s : string) : bool :=
  match s with String c _ => bool_decide (c = "/"%char) | "" => false end.

(** [os.path.join(a, b)] on POSIX *)
Definition os_path_join (a b : string) : string :=
  if is_abs b then b
  else if negb (truthy a) || endswith a "/" then a +:+ b
  else a +:+ "/" +:+ b.

End Py.
Import Py.

(** ** tools.py *)

Module Tools.

(** ["\n\n" in content] *)
Fixpoint contains_nlnl (content : string) : bool :=
  match content with
  | String a (String b _ as r) => is_nl a && is_nl b || contains_nlnl r
  | _ => false
  end.

(** [content.replace("\n\n", "\n")]: the occurrences are replaced from the
    left and do not overlap *)
Fixpoint replace_nlnl (content : string) : string :=
  match content with
  | String a (String b r' as r) =>
      if is_nl a && is_nl b then String NL (replace_nlnl r')
      else String a (replace_nlnl r)
  | _ => content
  end.

(** [while "\n\n" in content: content = content.replace("\n\n", "\n")],
    with a bound on the number of iterations; [None] when the bound is hit
    with the condition still true. *)
Fixpoint while_nlnl (fuel : nat) (content : string) : option string :=
  if contains_nlnl content then
    match fuel with
    | O => None
    | S fuel' => while_nlnl fuel' (replace_nlnl content)
    end
  else Some content.

(** Every iteration shortens [content], so its length bounds the loop
    ([while_nlnl_total] below). *)
Definition collapse_page (content : string) : string :=
  default content (while_nlnl (String.length content) content).

(** What the spec says of the normalisation: every run of line breaks
    becomes one line break. *)
Definition starts_nl (s : string) : bool :=
  match s with String c _ => is_nl c | "" => false end.

Fixpoint squeeze_newlines (s : string) : string :=
  match s with
  | String c r =>
      if is_nl c && starts_nl r then squeeze_newlines r
      else String c (squeeze_newlines r)
  | "" => ""
  end.

(** a page as [PyPDFLoader.load] returns it *)
Record Document : Type := { page_content : option string }.

Definition NO_TEXT : string := "(No text extracted from PDF)".

(** the body of the [for data in docs] loop *)
Definition add_page (full_report : string) (data : Document) : string :=
  let content := opt_or (page_content data) "" in
  let content := collapse_page content in
  full_report +:+ content +:+ nl.

(** [isfile] is [os.path.isfile] on the current file system and [load] is
    [PyPDFLoader(file_path=path).load()]. *)
Definition read_financial_document
    (isfile : string → bool) (load : string → outcome (list Document))
    (path : string) : outcome string :=
  if negb (truthy path) || negb (isfile path) then
    Ret ("Error: File not found at path: " +:+ path)
  else
    match load path with
    | Raise e => Raise e
    | Ret docs =>
        let full_report := fold_left add_page docs "" in
        Ret (str_or (strip full_report) NO_TEXT)
    end.

End Tools.

(** ** database.py *)

Module JobStatus.
Inductive t : Type := PENDING | PROCESSING | COMPLETED | FAILED.

(** the string constant behind each name *)
Definition value (s : t) : string :=
  match s with
  | PENDING => "pending"
  | PROCESSING => "processing"
  | COMPLETED => "completed"
  | FAILED => "failed"
  end.

#[global] Instance eq_dec : EqDecision t.
Proof. solve_decision. Defined.

Definition terminal (s : t) : bool :=
  match s with COMPLETED | FAILED => true | _ => false end.
End JobStatus.

Module AnalysisJob.
(** A row of [analysis_jobs] without its primary key: the table is a map
    from [id] to the other columns.  A nullable column is an [option]. *)
Record t : Type := mk {
  status : JobStatus.t;
  file_path : string;
  original_filename : option string;
  query : option string;
  result_text : option string;
  error_message : option string;
}.

Definition set_status (s : JobStatus.t) (job : t) : t :=
  mk s (file_path job) (original_filename job) (query job)
     (result_text job) (error_message job).

Definition set_result_text (r : option string) (job : t) : t :=
  mk (status job) (file_path job) (original_filename job)
     (query job) r (error_message job).

Definition set_error_message (m : option string) (job : t) : t :=
  mk (status job) (file_path job) (original_filename job)
     (query job) (result_text job) m.
End AnalysisJob.

(** ** The surroundings: job store, file system, queue, and what was called *)

Inductive fnode : Type :=
| RegularFile (content : string)
| Directory.

(** the arguments of one [run_analysis_task.delay(...)] *)
Record task_message : Type := {
  tm_job_id : string;
  tm_file_path : string;
  tm_query : string;
  tm_original_filename : option string;
}.

Inductive event : Type :=
| EvCommit (job_id : string) (row : AnalysisJob.t)   (* a commit wrote the row *)
| EvCrew (query file_path : string)     (* [crew.kickoff] was called *)
| EvWrite (path : string)               (* a file was opened for writing *)
| EvRemove (path : string).             (* [os.remove] was called *)

Record world : Type := mkWorld {
  w_db : gmap string AnalysisJob.t;     (* the committed rows, by id *)
  w_fs : gmap string fnode;             (* what each path names *)
  w_queue : list task_message;          (* accepted by the broker, oldest first *)
  w_trace : list event;                 (* oldest first *)
}.

Module Run.

(** A computation changes the world and returns or raises; the world
    survives a raise. *)
Definition M (A : Type) : Type := world → outcome A * world.

Definition ret {A} (a : A) : M A := λ w, (Ret a, w).
Definition raise {A} (e : exc) : M A := λ w, (Raise e, w).

Definition bind {A B} (m : M A) (k : A → M B) : M B :=
  λ w, match m w with
       | (Ret a, w') => k a w'
       | (Raise e, w') => (Raise e, w')
       end.

(** [try: m  except C as e: h e], where [catches] decides membership in [C] *)
Definition try_except {A} (m : M A) (catches : exc → bool) (h : exc → M A)
  : M A :=
  λ w, match m w with
       | (Raise e, w') => if catches e then h e w' else (Raise e, w')
       | r => r
       end.

(** [try: m  finally: fin]: [fin] runs whether [m] returned or raised; the
    outcome of [m] stands unless [fin] raises itself. *)
Definition try_finally {A} (m : M A) (fin : M unit) : M A :=
  λ w, let (r, w') := m w in
       match fin w' with
       | (Ret _, w'') => (r, w'')
       | (Raise e, w'') => (Raise e, w'')
       end.

Definition gets {A} (f : world → A) : M A := λ w, (Ret (f w), w).
Definition modify (f : world → world) : M unit := λ w, (Ret (), f w).

Definition log (ev : event) : M unit :=
  modify (λ w, mkWorld (w_db w) (w_fs w) (w_queue w) (w_trace w ++ [ev])).

(** [raise fault] if the call site is told to fail *)
Definition may_fail (fault : option exc) : M unit :=
  match fault with Some e => raise e | None => ret () end.

End Run.
Import Run.

#[global] Instance M_ret : MRet M := @ret.
#[global] Instance M_bind : MBind M := λ A B k m, bind m k.

Definition set_db (f : gmap string AnalysisJob.t → gmap string AnalysisJob.t)
    (w : world) : world :=
  mkWorld (f (w_db w)) (w_fs w) (w_queue w) (w_trace w).

Definition set_fs (f : gmap string fnode → gmap string fnode) (w : world)
  : world :=
  mkWorld (w_db w) (f (w_fs w)) (w_queue w) (w_trace w).

Module Os.

(** [os.path.exists(path)]; the empty path names nothing *)
Definition exists_ (fs : gmap string fnode) (path : string) : bool :=
  truthy path && bool_decide (is_Some (fs !! path)).

(** [os.path.isfile(path)] *)
Definition isfile (fs : gmap string fnode) (path : string) : bool :=
  truthy path &&
  match fs !! path with Some (RegularFile _) => true | _ => false end.

Definition path_exists (path : string) : M bool :=
  gets (λ w, exists_ (w_fs w) path).

Definition path_isfile (path : string) : M bool :=
  gets (λ w, isfile (w_fs w) path).

(** [os.remove(path)]: raises [OSError] when the system refuses ([fault]),
    when [path] is a directory or when nothing is there. *)
Definition remove (fault : option string) (path : string) : M unit :=
  log (EvRemove path);;
  node ← gets (λ w, w_fs w !! path);
  match fault, node with
  | Some msg, _ => raise (OSErr msg)
  | None, Some (RegularFile _) => modify (set_fs (delete path))
  | None, Some Directory => raise (OSErr "Is a directory")
  | None, None => raise (OSErr "No such file or directory")
  end.

(** How saving a file can fail: [open] refuses, and nothing at the path
    changes; or [open] went through -- the file was created, or emptied --
    and the write after it fails, leaving in the file what had reached it. *)
Inductive write_failure : Type :=
| OpenFailed (msg : string)
| WriteFailed (msg : string) (partial : string).

(** the text of the [OSError] *)
Definition reason (f : write_failure) : string :=
  match f with OpenFailed msg | WriteFailed msg _ => msg end.

(** [with open(path, "wb") as f: f.write(content)] *)
Definition write_file (fault : option write_failure) (path content : string)
  : M unit :=
  log (EvWrite path);;
  match fault with
  | Some (OpenFailed msg) => raise (OSErr msg)
  | Some (WriteFailed msg partial) =>
      modify (set_fs (<[path := RegularFile partial]>));;
      raise (OSErr msg)
  | None => modify (set_fs (<[path := RegularFile content]>))
  end.

End Os.

Module Session.

(** [db.query(AnalysisJob).filter(AnalysisJob.id == job_id).first()] *)
Definition query_first (fault : option exc) (job_id : string)
  : M (option AnalysisJob.t) :=
  may_fail fault;;
  gets (λ w, w_db w !! job_id).

(** [db.commit()], with [job] the one object of the session that changed
    and [job_id] its primary key *)
Definition commit (fault : option exc) (job_id : string)
    (job : AnalysisJob.t) : M unit :=
  may_fail fault;;
  modify (set_db (<[job_id := job]>));;
  log (EvCommit job_id job).

(** [db.add(job); db.commit()]: [id] is the primary key, a second row
    with it is refused. *)
Definition add_commit (fault : option exc) (job_id : string)
    (job : AnalysisJob.t) : M unit :=
  may_fail fault;;
  present ← gets (λ w, bool_decide (is_Some (w_db w !! job_id)));
  if (present : bool) then raise (Exc "IntegrityError")
  else commit None job_id job.

End Session.

(** [crew.kickoff(inputs)] followed by [str(result)]: an opaque collaborator
    whose answer ([result]) is given from outside. *)
Definition crew_kickoff (result : outcome string) (query file_path : string)
  : M string :=
  log (EvCrew query file_path);;
  match result with Ret s => ret s | Raise e => raise e end.

(** ** celery_tasks.py *)

Module CeleryTasks.

(** What the surroundings do at each call site of one run of the task:
    [None] and [Ret] are the calls that go well. *)
Record env : Type := {
  query_fault : option exc;              (* [db.query(...).first()] *)
  commit_processing_fault : option exc;  (* [db.commit()] after PROCESSING *)
  commit_missing_fault : option exc;     (* [db.commit()] of "File not found" *)
  crew_result : outcome string;          (* [crew.kickoff(inputs)] *)
  commit_final_fault : option exc;       (* the last [db.commit()] *)
  remove_fault : option string;          (* [os.remove(file_path)] refused *)
}.

(** the dictionaries the task returns *)
Inductive task_result : Type :=
| ResultError (ok : bool) (error : option string)
| ResultJob (ok : bool) (job_id : string).

Definition _run_crew_sync (result : outcome string) (query file_path : string)
  : M string :=
  crew_kickoff result query file_path.

(** [db.close()] *)
Definition db_close : M unit := ret ().

(** the body of the [try] *)
Definition try_block (e : env) (job_id file_path query : string)
  : M task_result :=
  job ← Session.query_first (query_fault e) job_id;
  match job with
  | None => ret (ResultError false (Some "Job not found"))
  | Some job =>
      let job := AnalysisJob.set_status JobStatus.PROCESSING job in
      Session.commit (commit_processing_fault e) job_id job;;
      isfile ← Os.path_isfile file_path;
      if negb isfile then
        let job := AnalysisJob.set_status JobStatus.FAILED job in
        let job :=
          AnalysisJob.set_error_message
            (Some ("File not found: " +:+ file_path)) job in
        Session.commit (commit_missing_fault e) job_id job;;
        ret (ResultError false (AnalysisJob.error_message job))
      else
        job ← try_except
                 (result ← _run_crew_sync (crew_result e) query file_path;
                  let job := AnalysisJob.set_status JobStatus.COMPLETED job in
                  let job := AnalysisJob.set_result_text (Some result) job in
                  let job := AnalysisJob.set_error_message None job in
                  ret job)
                 is_Exception
                 (λ ex,
                  let job := AnalysisJob.set_status JobStatus.FAILED job in
                  let job := AnalysisJob.set_error_message (Some (str ex)) job in
                  ret job);
        Session.commit (commit_final_fault e) job_id job;;
        ret (ResultJob
               (bool_decide (AnalysisJob.status job = JobStatus.COMPLETED))
               job_id)
  end.

(** the body of the [finally] *)
Definition finally_block (e : env) (file_path : string) : M unit :=
  db_close;;
  present ← Os.path_exists file_path;
  if truthy file_path && present then
    try_except (Os.remove (remove_fault e) file_path)
               is_OSError (λ _, ret ())
  else ret ().

Definition run_analysis_task (e : env) (job_id file_path query : string)
    (original_filename : option string) : M task_result :=
  try_finally (try_block e job_id file_path query)
              (finally_block e file_path).

End CeleryTasks.

(** ** main.py *)

Module Main.

Definition DEFAULT_QUERY : string :=
  "Analyze this financial document for investment insights".

(** [not file.filename or not file.filename.lower().endswith(".pdf")] *)
Definition not_a_pdf (filename : option string) : bool :=
  match filename with
  | None => true
  | Some name => negb (truthy name) || negb (endswith (lower name) ".pdf")
  end.

(** [(query or "").strip() or "Analyze this ..."], after [Form(default=...)]
    has filled in an absent field *)
Definition effective_query (query : option string) : string :=
  let query := default DEFAULT_QUERY query in
  str_or (strip (str_or query "")) DEFAULT_QUERY.

Definition run_crew (result : outcome string) (query file_path : string)
  : M string :=
  crew_kickoff result query file_path.

(** [run_analysis_task.delay(...)]: the message is in the queue when the
    call returns *)
Definition delay (fault : option exc) (msg : task_message) : M unit :=
  may_fail fault;;
  modify (λ w, mkWorld (w_db w) (w_fs w) (w_queue w ++ [msg]) (w_trace w)).

(** the [finally] of [analyze_sync], also the end of the handler in
    [analyze_async] *)
Definition remove_if_exists (fault : option string) (file_path : string)
  : M unit :=
  present ← Os.path_exists file_path;
  if (present : bool) then
    try_except (Os.remove fault file_path) is_OSError (λ _, ret ())
  else ret ().

Record sync_env : Type := {
  s_uuid : string;                  (* [str(uuid.uuid4())] *)
  s_write_fault : option Os.write_failure;   (* saving the upload fails *)
  s_crew_result : outcome string;
  s_remove_fault : option string;
}.

Record sync_response : Type := {
  sr_status : string;
  sr_query : string;
  sr_analysis : string;
  sr_file_processed : option string;
}.

Record async_env : Type := {
  a_uuid : string;
  a_write_fault : option Os.write_failure;
  a_commit_new_fault : option exc;      (* [db.add(job); db.commit()] *)
  a_delay_fault : option exc;           (* [run_analysis_task.delay] *)
  a_commit_failed_fault : option exc;   (* [db.commit()] in the handler *)
  a_remove_fault : option string;
}.

Record AnalyzeResponse : Type := {
  ar_job_id : string;
  ar_status : string;
  ar_message : string;
}.

(** the dictionary of [get_analysis_result]; ["analysis"] and ["error"]
    are keys that may be missing *)
Record poll_response : Type := {
  pr_job_id : string;
  pr_status : string;
  pr_query : option string;
  pr_file_processed : option string;
  pr_analysis : option (option string);
  pr_error : option string;
}.

Section Endpoints.

(** config.py: [DATA_DIR = os.getenv("DATA_DIR", "data")] *)
Variable DATA_DIR : string.

Definition UPLOAD_DIR : string := os_path_join DATA_DIR "uploads".

Definition upload_path (file_id : string) : string :=
  os_path_join UPLOAD_DIR ("financial_document_" +:+ file_id +:+ ".pdf").

Definition save_upload (fault : option Os.write_failure)
    (file_path content : string)
  : M unit :=
  try_except (Os.write_file fault file_path content)
             is_OSError
             (λ ex, raise (HTTPException 500
                             ("Failed to save file: " +:+ str ex))).

Definition analyze_sync (e : sync_env) (filename : option string)
    (content : string) (query : option string) : M sync_response :=
  if not_a_pdf filename then
    raise (HTTPException 400 "A PDF file is required.")
  else
    let file_id := s_uuid e in
    let file_path := upload_path file_id in
    save_upload (s_write_fault e) file_path content;;
    let query := effective_query query in
    try_finally
      (try_except
         (response ← run_crew (s_crew_result e) query file_path;
          ret {| sr_status := "success";
                 sr_query := query;
                 sr_analysis := response;
                 sr_file_processed := filename |})
         is_Exception
         (λ ex, raise (HTTPException 500
                         ("Error processing document: " +:+ str ex))))
      (remove_if_exists (s_remove_fault e) file_path).

Definition analyze_async (e : async_env) (filename : option string)
    (content : string) (query : option string) : M AnalyzeResponse :=
  if not_a_pdf filename then
    raise (HTTPException 400 "A PDF file is required.")
  else
    let job_id := a_uuid e in
    let file_path := upload_path job_id in
    save_upload (a_write_fault e) file_path content;;
    let query := effective_query query in
    let job :=
      AnalysisJob.mk JobStatus.PENDING file_path filename
                     (Some query) None None in
    Session.add_commit (a_commit_new_fault e) job_id job;;
    try_except
      (delay (a_delay_fault e)
             {| tm_job_id := job_id;
                tm_file_path := file_path;
                tm_query := query;
                tm_original_filename := filename |})
      is_Exception
      (λ ex,
       let job := AnalysisJob.set_status JobStatus.FAILED job in
       let job :=
         AnalysisJob.set_error_message
           (Some ("Failed to enqueue: " +:+ str ex)) job in
       Session.commit (a_commit_failed_fault e) job_id job;;
       remove_if_exists (a_remove_fault e) file_path;;
       raise (HTTPException 503 "Queue unavailable; try /analyze/sync"));;
    ret {| ar_job_id := job_id;
           ar_status := JobStatus.value JobStatus.PENDING;
           ar_message :=
             "Analysis queued. Poll GET /analyze/{job_id} for result." |}.

End Endpoints.

Definition opt_truthy (o : option string) : bool :=
  match o with Some s => truthy s | None => false end.

Definition get_analysis_result (fault : option exc) (job_id : string)
  : M poll_response :=
  job ← Session.query_first fault job_id;
  match job with
  | None => raise (HTTPException 404 "Job not found")
  | Some job =>
      let st := AnalysisJob.status job in
      ret {| pr_job_id := job_id;
             pr_status := JobStatus.value st;
             pr_query := AnalysisJob.query job;
             pr_file_processed := AnalysisJob.original_filename job;
             pr_analysis :=
               if bool_decide (st = JobStatus.COMPLETED)
               then Some (AnalysisJob.result_text job) else None;
             pr_error :=
               if bool_decide (st = JobStatus.FAILED)
                  && opt_truthy (AnalysisJob.error_message job)
               then AnalysisJob.error_message job else None |}
  end.

End Main.

(** ** Notions used in the statements *)

Module Words.
Import Tools Main.

(** The text the spec describes for one page, and for the document: every
    page squeezed and closed by a line break, one after the other. *)
Definition page_text (data : Document) : string :=
  squeeze_newlines (opt_or (page_content data) "") +:+ nl.

Fixpoint page_texts (docs : list Document) : string :=
  match docs with
  | data :: docs => page_text data +:+ page_texts docs
  | [] => ""
  end.

(** [name] ends in ".pdf", whatever the case of its letters *)
Definition ends_in_pdf (name : string) : Prop :=
  ∃ stem ext, name = stem +:+ ext ∧ lower ext = ".pdf".

(** the upload has no file name, or one that does not end in ".pdf" *)
Definition missing_or_not_pdf (filename : option string) : Prop :=
  match filename with
  | None => True
  | Some name => name = "" ∨ ¬ ends_in_pdf name
  end.

(** the form field is absent, empty or white space only *)
Definition blank_query (query : option string) : Prop :=
  match query with
  | None => True
  | Some q => all_chars isspace q = true
  end.


Definition is_remove (path : string) (ev : event) : bool :=
  match ev with EvRemove p => bool_decide (p = path) | _ => false end.

Definition is_crew (ev : event) : bool :=
  match ev with EvCrew _ _ => true | _ => false end.

(** how many events of the trace satisfy [p] *)
Definition count (p : event → bool) (trace : list event) : nat :=
  length (List.filter p trace).

(** the number of [os.remove(path)] calls so far *)
Definition removals (path : string) (w : world) : nat :=
  count (is_remove path) (w_trace w).

(** the number of [crew.kickoff] calls so far *)
Definition crew_calls (w : world) : nat := count is_crew (w_trace w).

Definition is_set (o : option string) : bool :=
  match o with Some _ => true | None => false end.

(** The result and the error of a row fit its status: a COMPLETED row has
    a result and no error, a FAILED row an error and no result, any other
    row neither. *)
Definition outcome_fits (job : AnalysisJob.t) : bool :=
  match AnalysisJob.status job with
  | JobStatus.COMPLETED =>
      is_set (AnalysisJob.result_text job)
      && negb (is_set (AnalysisJob.error_message job))
  | JobStatus.FAILED =>
      is_set (AnalysisJob.error_message job)
      && negb (is_set (AnalysisJob.result_text job))
  | JobStatus.PENDING | JobStatus.PROCESSING =>
      negb (is_set (AnalysisJob.result_text job))
      && negb (is_set (AnalysisJob.error_message job))
  end.

(** every row of the store, and every row a commit wrote, fits *)
Definition store_fits (w : world) : Prop :=
  (∀ job_id job, w_db w !! job_id = Some job → outcome_fits job = true)
  ∧ (∀ job_id row, EvCommit job_id row ∈ w_trace w → outcome_fits row = true).

(** the status of the job [job_id], if there is such a job *)
Definition status_of (w : world) (job_id : string) : option JobStatus.t :=
  AnalysisJob.status <$> w_db w !! job_id.

(** the same surroundings, with another answer to [os.remove] *)
Definition with_remove_fault (fault : option string) (e : CeleryTasks.env)
  : CeleryTasks.env :=
  {| CeleryTasks.query_fault := CeleryTasks.query_fault e;
     CeleryTasks.commit_processing_fault := CeleryTasks.commit_processing_fault e;
     CeleryTasks.commit_missing_fault := CeleryTasks.commit_missing_fault e;
     CeleryTasks.crew_result := CeleryTasks.crew_result e;
     CeleryTasks.commit_final_fault := CeleryTasks.commit_final_fault e;
     CeleryTasks.remove_fault := fault |}.

Definition sync_with_remove_fault (fault : option string) (e : sync_env)
  : sync_env :=
  {| s_uuid := s_uuid e;
     s_write_fault := s_write_fault e;
     s_crew_result := s_crew_result e;
     s_remove_fault := fault |}.

(** The world after the clean-up that ends the task and the synchronous
    endpoint: if [path] exists, [os.remove(path)] is called, and the file
    is gone unless the call is refused or [path] is a directory. *)
Definition after_cleanup (fault : option string) (path : string) (w : world)
  : world :=
  if Os.exists_ (w_fs w) path then
    mkWorld (w_db w)
            (match fault, w_fs w !! path with
             | None, Some (RegularFile _) => delete path (w_fs w)
             | _, _ => w_fs w
             end)
            (w_queue w) (w_trace w ++ [EvRemove path])
  else w.

(** the world after a commit that wrote [row] under [job_id] *)
Definition committed (job_id : string) (row : AnalysisJob.t) (w : world)
  : world :=
  mkWorld (<[job_id := row]> (w_db w)) (w_fs w) (w_queue w)
          (w_trace w ++ [EvCommit job_id row]).

(** the world after a call that only left [ev] in the trace *)
Definition logged (ev : event) (w : world) : world :=
  mkWorld (w_db w) (w_fs w) (w_queue w) (w_trace w ++ [ev]).

(** the rows the task writes, from the row [job] it found *)
Definition processing_row (job : AnalysisJob.t) : AnalysisJob.t :=
  AnalysisJob.set_status JobStatus.PROCESSING job.

Definition failed_row (msg : string) (job : AnalysisJob.t) : AnalysisJob.t :=
  AnalysisJob.set_error_message (Some msg)
    (AnalysisJob.set_status JobStatus.FAILED (processing_row job)).

Definition completed_row (result : string) (job : AnalysisJob.t)
  : AnalysisJob.t :=
  AnalysisJob.set_error_message None
    (AnalysisJob.set_result_text (Some result)
       (AnalysisJob.set_status JobStatus.COMPLETED (processing_row job))).

(** the world after the upload was saved at [path] *)
Definition written (path content : string) (w : world) : world :=
  mkWorld (w_db w) (<[path := RegularFile content]> (w_fs w)) (w_queue w)
          (w_trace w ++ [EvWrite path]).

(** The world after saving the upload at [path] failed: the file system as
    before when [open] failed, with the partly written file at [path] when
    the write failed. *)
Definition failed_write (f : Os.write_failure) (path : string) (w : world)
  : world :=
  mkWorld (w_db w)
          (match f with
           | Os.OpenFailed _ => w_fs w
           | Os.WriteFailed _ partial => <[path := RegularFile partial]> (w_fs w)
           end)
          (w_queue w) (w_trace w ++ [EvWrite path]).

(** the world after the broker accepted [msg] *)
Definition enqueued (msg : task_message) (w : world) : world :=
  mkWorld (w_db w) (w_fs w) (w_queue w ++ [msg]) (w_trace w).

(** the row [analyze_async] creates, and the one its handler writes *)
Definition new_row (file_path : string) (filename : option string)
    (query : string) : AnalysisJob.t :=
  AnalysisJob.mk JobStatus.PENDING file_path filename (Some query) None None.

Definition unqueued_row (ex : exc) (row : AnalysisJob.t) : AnalysisJob.t :=
  AnalysisJob.set_error_message (Some ("Failed to enqueue: " +:+ str ex))
    (AnalysisJob.set_status JobStatus.FAILED row).

(** what the synchronous endpoint answers once the upload is saved *)
Definition sync_answer (e : sync_env) (filename : option string)
    (query : string) : outcome sync_response :=
  match s_crew_result e with
  | Ret response =>
      Ret {| sr_status := "success"; sr_query := query;
             sr_analysis := response; sr_file_processed := filename |}
  | Raise ex =>
      if is_Exception ex
      then Raise (HTTPException 500 ("Error processing document: " +:+ str ex))
      else Raise ex
  end.

(** what the asynchronous endpoint answers once the job is queued *)
Definition queued_response (job_id : string) : AnalyzeResponse :=
  {| ar_job_id := job_id;
     ar_status := "pending";
     ar_message := "Analysis queued. Poll GET /analyze/{job_id} for result." |}.

(** the store calls of one run of the task all go well *)
Definition store_up (e : CeleryTasks.env) : Prop :=
  CeleryTasks.query_fault e = None
  ∧ CeleryTasks.commit_processing_fault e = None
  ∧ CeleryTasks.commit_missing_fault e = None
  ∧ CeleryTasks.commit_final_fault e = None.

End Words.
Import Words.

(** ** Concrete surroundings, for the examples *)

Module Sample.
Import CeleryTasks.

Definition pdf_path : string := "data/uploads/financial_document_42.pdf".

Definition pending_job : AnalysisJob.t :=
  AnalysisJob.mk JobStatus.PENDING pdf_path (Some "report.pdf")
                 (Some "Summarize this report") None None.

(** one pending job, its upload on disk *)
Definition fresh_world : world :=
  mkWorld {[ "42" := pending_job ]} {[ pdf_path := RegularFile "%PDF-1.7" ]}
          [] [].


(** an upload on disk and no job *)
Definition no_job_world : world :=
  mkWorld ∅ {[ pdf_path := RegularFile "%PDF-1.7" ]} [] [].

(** every call goes well and the crew answers *)
Definition quiet : env :=
  {| query_fault := None;
     commit_processing_fault := None;
     commit_missing_fault := None;
     crew_result := Ret "Revenue grew 12%.";
     commit_final_fault := None;
     remove_fault := None |}.

(** the crew raises an [Exception] *)
Definition crew_down : env :=
  {| query_fault := None;
     commit_processing_fault := None;
     commit_missing_fault := None;
     crew_result := Raise (Exc "quota exceeded");
     commit_final_fault := None;
     remove_fault := None |}.

(** the store refuses the first commit *)
Definition store_locked : env :=
  {| query_fault := None;
     commit_processing_fault := Some (Exc "database is locked");
     commit_missing_fault := None;
     crew_result := Ret "Revenue grew 12%.";
     commit_final_fault := None;
     remove_fault := None |}.


(** a job that completed, its upload gone *)
Definition completed_job : AnalysisJob.t :=
  AnalysisJob.mk JobStatus.COMPLETED pdf_path (Some "report.pdf")
                 (Some "Summarize this report") (Some "Revenue grew 12%.")
                 None.

Definition completed_world : world :=
  mkWorld {[ "42" := completed_job ]} ∅ [] [].

(** an upload to [analyze_sync] where all goes well *)
Definition sync_quiet : Main.sync_env :=
  {| Main.s_uuid := "42";
     Main.s_write_fault := None;
     Main.s_crew_result := Ret "Revenue grew 12%.";
     Main.s_remove_fault := None |}.

Definition sync_remove_denied : Main.sync_env :=
  {| Main.s_uuid := "42";
     Main.s_write_fault := None;
     Main.s_crew_result := Ret "Revenue grew 12%.";
     Main.s_remove_fault := Some "Permission denied" |}.

(** an upload to [analyze_async] where all goes well *)
Definition async_quiet : Main.async_env :=
  {| Main.a_uuid := "42";
     Main.a_write_fault := None;
     Main.a_commit_new_fault := None;
     Main.a_delay_fault := None;
     Main.a_commit_failed_fault := None;
     Main.a_remove_fault := None |}.

(** the broker is down *)
Definition broker_down : Main.async_env :=
  {| Main.a_uuid := "42";
     Main.a_write_fault := None;
     Main.a_commit_new_fault := None;
     Main.a_delay_fault := Some (Exc "Connection refused");
     Main.a_commit_failed_fault := None;
     Main.a_remove_fault := None |}.

(** the broker is down and the file system refuses the removal *)
Definition broker_down_remove_denied : Main.async_env :=
  {| Main.a_uuid := "42";
     Main.a_write_fault := None;
     Main.a_commit_new_fault := None;
     Main.a_delay_fault := Some (Exc "Connection refused");
     Main.a_commit_failed_fault := None;
     Main.a_remove_fault := Some "Permission denied" |}.

Definition empty_world : world := mkWorld ∅ ∅ [] [].

(** the file system refuses the removal *)
Definition remove_denied : env :=
  {| query_fault := None;
     commit_processing_fault := None;
     commit_missing_fault := None;
     crew_result := Ret "Revenue grew 12%.";
     commit_final_fault := None;
     remove_fault := Some "Permission denied" |}.

End Sample.

(** ** config.py and the model choice of agents.py *)

Module Config.

(** [os.getenv(name)] on the environment as [load_dotenv()] left it *)
Definition getenv (environ : gmap string string) (name : string)
  : option string :=
  environ !! name.

(** [os.getenv(name, fallback)] *)
Definition getenv_or (environ : gmap string string) (name fallback : string)
  : string :=
  default fallback (environ !! name).

Definition OPENAI_API_KEY (environ : gmap string string) : option string :=
  getenv environ "OPENAI_API_KEY".

Definition GOOGLE_API_KEY (environ : gmap string string) : option string :=
  getenv environ "GOOGLE_API_KEY".

Definition LLM_MODEL (environ : gmap string string) : string :=
  getenv_or environ "LLM_MODEL" "gpt-4o-mini".

Definition DATABASE_URL (environ : gmap string string) : string :=
  getenv_or environ "DATABASE_URL" "sqlite:///./financial_analyzer.db".

Definition REDIS_URL (environ : gmap string string) : string :=
  getenv_or environ "REDIS_URL" "redis://localhost:6379/0".

Definition CELERY_BROKER_URL (environ : gmap string string) : string :=
  getenv_or environ "CELERY_BROKER_URL" (REDIS_URL environ).

Definition DATA_DIR (environ : gmap string string) : string :=
  getenv_or environ "DATA_DIR" "data".

Definition UPLOAD_DIR (environ : gmap string string) : string :=
  os_path_join (DATA_DIR environ) "uploads".

End Config.

Module Agents.

(** the module-level choice of [llm] in agents.py *)
Definition llm (environ : gmap string string) : string :=
  let _model := Config.getenv_or environ "LLM_MODEL" "gpt-4o-mini" in
  let _model :=
    if Main.opt_truthy (Config.getenv environ "GOOGLE_API_KEY")
       && negb (Main.opt_truthy (Config.getenv environ "OPENAI_API_KEY"))
    then Config.getenv_or environ "LLM_MODEL" "gemini/gemini-1.5-flash"
    else _model in
  _model.

End Agents.

(** ** check_python.py *)

Module CheckPython.

Definition MIN : nat * nat := (3, 10).
Definition MAX : nat * nat := (3, 14).

(** [a < b] on pairs of numbers: by the first component, then the second *)
Definition tuple_lt (a b : nat * nat) : bool :=
  (a.1 <? b.1) || (a.1 =? b.1) && (a.2 <? b.2).

(** how [main] ends: [sys.exit(code)] after a message on the error stream,
    or normally after a message on the output stream *)
Inductive ending : Type :=
| Exit (code : nat) (stderr : string)
| Done (stdout : string).

(** [version_info] is [sys.version_info[:2]] and [version] is
    [sys.version.split()[0]] *)
Definition main (version_info : nat * nat) (version : string) : ending :=
  let v := version_info in
  if tuple_lt v MIN then
    Exit 1 ("This project requires Python " +:+ pretty MIN.1 +:+ "."
            +:+ pretty MIN.2 +:+ " or newer. You have " +:+ version +:+ "."
            +:+ nl)
  else if negb (tuple_lt v MAX) then
    Exit 1 ("CrewAI 0.130 requires Python >=3.10 and <3.14. You have "
            +:+ version +:+ " (3.14+ is not yet supported)." +:+ nl
            +:+ "Please use a virtual environment with Python 3.10, 3.11, or 3.12:"
            +:+ nl
            +:+ "  - Install Python 3.12 from https://www.python.org/downloads/"
            +:+ nl
            +:+ "  - Then: py -3.12 -m venv .venv  &&  .venv\Scripts\activate  &&  pip install -r requirements.txt"
            +:+ nl)
  else Done ("Python " +:+ version +:+ " OK for crewai." +:+ nl).

End CheckPython.

(** ** Further notions used in the statements *)

Module More.
Import Tools Main.

(** [s] without its line breaks *)
Fixpoint without_nl (s : string) : string :=
  match s with
  | String c r => if is_nl c then without_nl r else String c (without_nl r)
  | "" => ""
  end.

(** The worker takes a message off the queue: Celery calls the task with the
    arguments that [delay] was given. *)
Definition deliver (e : CeleryTasks.env) (msg : task_message)
  : M CeleryTasks.task_result :=
  CeleryTasks.run_analysis_task e (tm_job_id msg) (tm_file_path msg)
    (tm_query msg) (tm_original_filename msg).

(** everything goes well for one upload to [analyze_async] *)
Definition async_up (e : async_env) : Prop :=
  a_write_fault e = None
  ∧ a_commit_new_fault e = None
  ∧ a_delay_fault e = None.

(** the text of a page, [None] read as empty *)
Definition page_string (data : Document) : string :=
  opt_or (page_content data) "".

End More.
Import More.

(** ** More concrete surroundings *)

Module MoreSample.

(** the disk is full when [analyze_sync] saves the upload *)
Definition sync_disk_full : Main.sync_env :=
  {| Main.s_uuid := "42";
     Main.s_write_fault := Some (Os.WriteFailed "No space left on device" "%PDF");
     Main.s_crew_result := Ret "Revenue grew 12%.";
     Main.s_remove_fault := None |}.

(** the disk is full when [analyze_async] saves the upload *)
Definition async_disk_full : Main.async_env :=
  {| Main.a_uuid := "42";
     Main.a_write_fault := Some (Os.WriteFailed "No space left on device" "%PDF");
     Main.a_commit_new_fault := None;
     Main.a_delay_fault := None;
     Main.a_commit_failed_fault := None;
     Main.a_remove_fault := None |}.

(** the crew raises an [Exception] under [analyze_sync] *)
Definition sync_crew_down : Main.sync_env :=
  {| Main.s_uuid := "42";
     Main.s_write_fault := None;
     Main.s_crew_result := Raise (Exc "quota exceeded");
     Main.s_remove_fault := None |}.

(** the handler of [analyze_async] cannot commit: broker and store are down *)
Definition broker_and_store_down : Main.async_env :=
  {| Main.a_uuid := "42";
     Main.a_write_fault := None;
     Main.a_commit_new_fault := None;
     Main.a_delay_fault := Some (Exc "Connection refused");
     Main.a_commit_failed_fault := Some (Exc "database is locked");
     Main.a_remove_fault := None |}.

End MoreSample.

(** * Properties *)

(** ** Strings *)

Section StringFacts.

Lemma string_pair_ind (P : string → Prop) :
  P "" →
  (∀ a, P (String a "")) →
  (∀ a b r, P r → P (String b r) → P (String a (String b r))) →
  ∀ s, P s.
Proof.
  intros H0 H1 H2 s.
  assert (P s ∧ ∀ a, P (String a s)) as [? _]; [|done].
  induction s as [|b r [IHr IHbr]]; split; auto.
Qed.

Lemma app_nil_l (s : string) : "" +:+ s = s.
Proof. reflexivity. Qed.

Lemma app_cons (c : ascii) (s t : string) :
  String c s +:+ t = String c (s +:+ t).
Proof. reflexivity. Qed.

Lemma app_nil_r (s : string) : s +:+ "" = s.
Proof. induction s as [|c s IH]; [done|]. by rewrite app_cons, IH. Qed.

Lemma app_assoc (s t u : string) : (s +:+ t) +:+ u = s +:+ t +:+ u.
Proof. induction s as [|c s IH]; [done|]. by rewrite !app_cons, IH. Qed.

Lemma app_eq_nil (s t : string) : s +:+ t = "" → s = "" ∧ t = "".
Proof. destruct s; [done|]. by rewrite app_cons. Qed.

Lemma truthy_false (s : string) : truthy s = false ↔ s = "".
Proof. by destruct s. Qed.

Lemma str_or_truthy (a b : string) : truthy b = true → truthy (str_or a b) = true.
Proof. unfold str_or. by destruct (truthy a) eqn:E. Qed.



Lemma lstrip_blank (s : string) : lstrip s = "" ↔ all_chars isspace s = true.
Proof.
  induction s as [|c r IH]; simpl; [done|].
  destruct (isspace c); simpl; [done|]. by split.
Qed.

Lemma rstrip_blank (s : string) : rstrip s = "" ↔ all_chars isspace s = true.
Proof.
  induction s as [|c r IH]; simpl; [done|].
  destruct (rstrip r) eqn:E; simpl.
  - destruct (isspace c); simpl; [tauto|]. split; [done|]. by intros.
  - split; [done|]. rewrite andb_true_iff. intros [_ ?].
    by apply IH in H.
Qed.

Lemma lstrip_all_blank (s : string) :
  all_chars isspace s = true → all_chars isspace (lstrip s) = true.
Proof. intros H. by apply lstrip_blank in H as ->. Qed.

(** [s.strip()] is empty exactly when [s] is made of white space only *)
Lemma strip_blank (s : string) : strip s = "" ↔ all_chars isspace s = true.
Proof.
  unfold strip. rewrite rstrip_blank. split.
  - induction s as [|c r IH]; simpl; [done|].
    destruct (isspace c) eqn:E; simpl; [done|]. by rewrite E.
  - apply lstrip_all_blank.
Qed.

Lemma endswith_spec (s suffix : string) :
  endswith s suffix = true ↔ ∃ stem, s = stem +:+ suffix.
Proof.
  induction s as [|c r IH]; simpl.
  - rewrite orb_false_r, bool_decide_eq_true. split.
    + intros <-. by exists "".
    + intros [stem H]. symmetry in H. by apply app_eq_nil in H as [_ ->].
  - rewrite orb_true_iff, bool_decide_eq_true, IH. split.
    + intros [<- | [stem ->]]; [by exists ""|]. by exists (String c stem).
    + intros [[|c' stem] H].
      * left. by rewrite H.
      * right. rewrite app_cons in H. injection H as -> ->. by exists stem.
Qed.

Lemma lower_app (s t : string) : lower (s +:+ t) = lower s +:+ lower t.
Proof. induction s as [|c s IH]; [done|]. by rewrite app_cons; simpl; rewrite IH. Qed.

Lemma lower_split (s a b : string) :
  lower s = a +:+ b → ∃ sa sb, s = sa +:+ sb ∧ lower sa = a ∧ lower sb = b.
Proof.
  revert s. induction a as [|c a IH]; intros s H.
  - by exists "", s.
  - destruct s as [|c' s]; [done|]. simpl in H. rewrite app_cons in H.
    injection H as Hc H. apply IH in H as (sa & sb & -> & <- & <-).
    exists (String c' sa), sb. by rewrite app_cons; simpl; rewrite Hc.
Qed.

End StringFacts.

(** ** tools.py: the extractor *)

Section Extractor.
Import Tools.

Lemma starts_nl_replace (s : string) : starts_nl (replace_nlnl s) = starts_nl s.
Proof.
  destruct s as [|a [|b r]]; simpl; try done.
  destruct (is_nl a) eqn:Ea; simpl; [|by rewrite Ea].
  by destruct (is_nl b).
Qed.

Lemma is_nl_NL : is_nl NL = true.
Proof. done. Qed.

Lemma is_nl_true (c : ascii) : is_nl c = true → c = NL.
Proof. unfold is_nl. by rewrite bool_decide_eq_true. Qed.

Lemma replace_nlnl_length (s : string) :
  String.length (replace_nlnl s) ≤ String.length s.
Proof.
  induction s as [|a|a b r IHr IHbr] using string_pair_ind; simpl; try lia.
  destruct (is_nl a && is_nl b); simpl in *; lia.
Qed.

(** one pass of the loop shortens the text whenever the loop is entered *)
Lemma replace_nlnl_shorter (s : string) :
  contains_nlnl s = true →
  String.length (replace_nlnl s) < String.length s.
Proof.
  induction s as [|a|a b r IHr IHbr] using string_pair_ind; simpl; try done.
  destruct (is_nl a && is_nl b); simpl.
  - intros _. pose proof (replace_nlnl_length r). lia.
  - intros H. apply IHbr in H. simpl in H. lia.
Qed.

Lemma squeeze_replace (s : string) :
  squeeze_newlines (replace_nlnl s) = squeeze_newlines s.
Proof.
  induction s as [|a|a b r IHr IHbr] using string_pair_ind; try done.
  change (replace_nlnl (String a (String b r))) with
    (if is_nl a && is_nl b then String NL (replace_nlnl r)
     else String a (replace_nlnl (String b r))).
  destruct (is_nl a) eqn:Ea, (is_nl b) eqn:Eb; simpl andb; cbv iota.
  - apply is_nl_true in Ea as ->. apply is_nl_true in Eb as ->.
    change (squeeze_newlines (String NL (String NL r))) with
      (squeeze_newlines (String NL r)).
    change (squeeze_newlines (String NL (replace_nlnl r))) with
      (if is_nl NL && starts_nl (replace_nlnl r)
       then squeeze_newlines (replace_nlnl r)
       else String NL (squeeze_newlines (replace_nlnl r))).
    rewrite starts_nl_replace, IHr. done.
  - change (squeeze_newlines (String a (replace_nlnl (String b r)))) with
      (if is_nl a && starts_nl (replace_nlnl (String b r))
       then squeeze_newlines (replace_nlnl (String b r))
       else String a (squeeze_newlines (replace_nlnl (String b r)))).
    by rewrite starts_nl_replace, IHbr.
  - change (squeeze_newlines (String a (replace_nlnl (String b r)))) with
      (if is_nl a && starts_nl (replace_nlnl (String b r))
       then squeeze_newlines (replace_nlnl (String b r))
       else String a (squeeze_newlines (replace_nlnl (String b r)))).
    by rewrite starts_nl_replace, IHbr.
  - change (squeeze_newlines (String a (replace_nlnl (String b r)))) with
      (if is_nl a && starts_nl (replace_nlnl (String b r))
       then squeeze_newlines (replace_nlnl (String b r))
       else String a (squeeze_newlines (replace_nlnl (String b r)))).
    by rewrite starts_nl_replace, IHbr.
Qed.

Lemma squeeze_fixed (s : string) :
  contains_nlnl s = false → squeeze_newlines s = s.
Proof.
  induction s as [|a|a b r IHr IHbr] using string_pair_ind; try done.
  - intros _. simpl. by rewrite andb_false_r.
  - intros H. simpl in H. apply orb_false_iff in H as [Hab H].
    change (squeeze_newlines (String a (String b r))) with
      (if is_nl a && is_nl b then squeeze_newlines (String b r)
       else String a (squeeze_newlines (String b r))).
    by rewrite Hab, IHbr.
Qed.

Lemma starts_nl_squeeze (s : string) :
  starts_nl (squeeze_newlines s) = starts_nl s.
Proof.
  induction s as [|c r IH]; [done|]. simpl.
  destruct (is_nl c) eqn:Ec; simpl; [|done].
  destruct (starts_nl r) eqn:Er; simpl; [|done]. by rewrite IH.
Qed.

(** the squeezed text has no two line breaks in a row *)
Lemma squeeze_no_nlnl (s : string) :
  contains_nlnl (squeeze_newlines s) = false.
Proof.
  induction s as [|c r IH]; [done|]. simpl.
  destruct (is_nl c && starts_nl r) eqn:E; [done|].
  destruct (squeeze_newlines r) as [|b r'] eqn:Er; [done|].
  pose proof (starts_nl_squeeze r) as Hs. rewrite Er in Hs. simpl in Hs.
  change (contains_nlnl (String c (String b r'))) with
    (is_nl c && is_nl b || contains_nlnl (String b r')).
  rewrite IH, orb_false_r, Hs. done.
Qed.

Lemma while_nlnl_squeeze (fuel : nat) (content : string) :
  String.length content ≤ fuel →
  while_nlnl fuel content = Some (squeeze_newlines content).
Proof.
  revert content. induction fuel as [|fuel IH]; intros content Hlen.
  - destruct content; [done|]. simpl in Hlen. lia.
  - simpl. destruct (contains_nlnl content) eqn:E.
    + rewrite IH, squeeze_replace; [done|].
      apply replace_nlnl_shorter in E. lia.
    + by rewrite squeeze_fixed.
Qed.

(** The loop of the extractor ends within [length content] iterations. *)
Lemma while_nlnl_total (content : string) :
  is_Some (while_nlnl (String.length content) content).
Proof. by rewrite while_nlnl_squeeze. Qed.

(** What the loop computes is the squeezing the spec describes. *)
Lemma collapse_page_squeeze (content : string) :
  collapse_page content = squeeze_newlines content.
Proof. unfold collapse_page. by rewrite while_nlnl_squeeze. Qed.

Lemma collapse_page_no_nlnl (content : string) :
  contains_nlnl (collapse_page content) = false.
Proof. rewrite collapse_page_squeeze. apply squeeze_no_nlnl. Qed.

Lemma fold_add_page (docs : list Document) (acc : string) :
  fold_left add_page docs acc = acc +:+ page_texts docs.
Proof.
  revert acc. induction docs as [|d docs IH]; intros acc; simpl.
  - by rewrite app_nil_r.
  - rewrite IH. unfold add_page, page_text.
    by rewrite collapse_page_squeeze, !app_assoc.
Qed.

(** C7, as the code has it.  The extractor never returns the empty string.
    For an empty path or a path that names no file it returns
    "Error: File not found at path: <path>" without loading anything.
    Otherwise, when the loader returns the pages, it returns the text of
    the pages -- each with its runs of line breaks squeezed to one, so
    that within a page no two line breaks follow each other, and each
    closed by a line break -- stripped, or "(No text extracted from PDF)"
    when nothing is left; when the loader raises, so does the extractor. *)
Theorem extractor_result (isfile : string → bool)
    (load : string → outcome (list Document)) (path : string) :
  (∀ text, read_financial_document isfile load path = Ret text → text ≠ "")
  ∧ (path = "" ∨ isfile path = false →
     read_financial_document isfile load path
     = Ret ("Error: File not found at path: " +:+ path))
  ∧ (path ≠ "" → isfile path = true → ∀ docs, load path = Ret docs →
     read_financial_document isfile load path
     = Ret (if decide (strip (page_texts docs) = "") then NO_TEXT
            else strip (page_texts docs))
     ∧ Forall (λ data,
               contains_nlnl
                 (squeeze_newlines (opt_or (page_content data) "")) = false)
         docs)
  ∧ (path ≠ "" → isfile path = true → ∀ ex, load path = Raise ex →
     read_financial_document isfile load path = Raise ex).
Proof.
  unfold read_financial_document. split; [|split; [|split]].
  - intros text. destruct (negb (truthy path) || negb (isfile path)).
    + intros [= <-]. done.
    + destruct (load path) as [docs|ex]; [|done]. intros [= <-] H.
      apply truthy_false in H. by rewrite str_or_truthy in H.
  - intros [-> | ->]; [done|]. by rewrite orb_true_r.
  - intros Hpath Hfile docs ->. rewrite Hfile.
    destruct path; [done|]. simpl. rewrite fold_add_page, app_nil_l.
    split.
    + f_equal. unfold str_or. case_decide as E; [by rewrite E|].
      by destruct (strip (page_texts docs)).
    + apply Forall_forall. intros data _. apply squeeze_no_nlnl.
  - intros Hpath Hfile ex ->. rewrite Hfile. by destruct path.
Qed.

Lemma extractor_result_witness :
  read_financial_document (λ _, true)
    (λ _, Ret [ {| page_content := Some "  Revenue" |};
                {| page_content := Some "grew 12%.  " |} ])
    "report.pdf"
  = Ret ("Revenue" +:+ nl +:+ "grew 12%.").
Proof.
  pose proof (extractor_result (λ _, true)
                (λ _, Ret [ {| page_content := Some "  Revenue" |};
                            {| page_content := Some "grew 12%.  " |} ])
                "report.pdf") as (_ & _ & H & _).
  destruct (H ltac:(discriminate) eq_refl _ eq_refl) as [-> _].
  vm_compute. reflexivity.
Defined.

(** C7, as the spec has it, fails: with an empty page between two pages,
    the text returned has two line breaks in a row, and is not the text
    with every run of line breaks squeezed. *)
Lemma extractor_blank_line_between_pages :
  let docs := [ {| page_content := Some "Revenue" |};
                {| page_content := Some "" |};
                {| page_content := Some "grew 12%." |} ] in
  let text := "Revenue" +:+ nl +:+ nl +:+ "grew 12%." in
  read_financial_document (λ _, true) (λ _, Ret docs) "report.pdf" = Ret text
  ∧ contains_nlnl text = true
  ∧ text ≠ squeeze_newlines text.
Proof. vm_compute. repeat split. discriminate. Qed.

End Extractor.

(** ** main.py: validation of the request *)

Section Validation.
Import Main.

Lemma not_a_pdf_spec (filename : option string) :
  not_a_pdf filename = true ↔ missing_or_not_pdf filename.
Proof.
  destruct filename as [name|]; simpl; [|done].
  rewrite orb_true_iff, !negb_true_iff, truthy_false.
  assert (endswith (lower name) ".pdf" = true ↔ ends_in_pdf name) as Hends.
  { rewrite endswith_spec. split.
    - intros [stem H]. apply lower_split in H as (sa & sb & -> & _ & H).
      by exists sa, sb.
    - intros (stem & ext & -> & H). exists (lower stem).
      by rewrite lower_app, H. }
  rewrite <- Hends. clear Hends.
  destruct (endswith (lower name) ".pdf"); intuition congruence.
Qed.

Lemma effective_query_blank (query : option string) :
  blank_query query → effective_query query = DEFAULT_QUERY.
Proof.
  destruct query as [q|]; simpl; [|by intros _; vm_compute].
  intros H. unfold effective_query. simpl.
  assert (strip (str_or q "") = "") as ->; [|done].
  apply strip_blank. unfold str_or. by destruct (truthy q).
Qed.

Lemma effective_query_truthy (query : option string) :
  truthy (effective_query query) = true.
Proof. unfold effective_query. by apply str_or_truthy. Qed.

End Validation.

(** ** The trace *)

Section Trace.

Lemma count_snoc (p : event → bool) (trace : list event) (ev : event) :
  count p (trace ++ [ev]) = count p trace + (if p ev then 1 else 0).
Proof.
  unfold count. rewrite List.filter_app, length_app. simpl.
  by destruct (p ev).
Qed.

Lemma is_remove_same (path : string) : is_remove path (EvRemove path) = true.
Proof. simpl. by apply bool_decide_eq_true. Qed.

End Trace.

(** ** The clean-up *)

Ltac unfold_prims :=
  unfold crew_kickoff, Session.query_first, Session.commit, Session.add_commit,
    Os.remove, Os.write_file, Os.path_exists, Os.path_isfile,
    try_finally, try_except, may_fail, log, gets, modify,
    mbind, M_bind, bind, mret, M_ret, ret, raise, set_db, set_fs.

Section Cleanup.
Import CeleryTasks Main.

Lemma exists_truthy (fs : gmap string fnode) (path : string) :
  Os.exists_ fs path = true → truthy path = true.
Proof. unfold Os.exists_. by intros [? _]%andb_true_iff. Qed.

Lemma isfile_exists (fs : gmap string fnode) (path : string) :
  Os.isfile fs path = true → Os.exists_ fs path = true.
Proof.
  unfold Os.isfile, Os.exists_. intros [-> H]%andb_true_iff. simpl.
  apply bool_decide_eq_true. destruct (fs !! path); [by eexists|done].
Qed.

Lemma remove_if_exists_run (fault : option string) (path : string) (w : world) :
  remove_if_exists fault path w = (Ret (), after_cleanup fault path w).
Proof.
  unfold remove_if_exists, after_cleanup. unfold_prims. simpl.
  destruct (Os.exists_ (w_fs w) path) eqn:E; [|done].
  destruct fault as [msg|]; simpl; [done|].
  destruct (w_fs w !! path) as [[content|]|]; simpl; done.
Qed.

(** The [finally] of the task never raises. *)
Lemma finally_block_run (e : env) (path : string) (w : world) :
  finally_block e path w = (Ret (), after_cleanup (remove_fault e) path w).
Proof.
  unfold finally_block, db_close, after_cleanup. unfold_prims. simpl.
  destruct (Os.exists_ (w_fs w) path) eqn:E.
  - rewrite (exists_truthy _ _ E). simpl.
    destruct (remove_fault e) as [msg|]; simpl; [done|].
    destruct (w_fs w !! path) as [[content|]|]; simpl; done.
  - by rewrite andb_false_r.
Qed.

Lemma run_analysis_task_run (e : env) (job_id path query : string)
    (orig : option string) (w : world) :
  run_analysis_task e job_id path query orig w =
  ((try_block e job_id path query w).1,
   after_cleanup (remove_fault e) path (try_block e job_id path query w).2).
Proof.
  unfold run_analysis_task, try_finally.
  destruct (try_block e job_id path query w) as [r w'].
  by rewrite finally_block_run.
Qed.

Lemma after_cleanup_db fault path w : w_db (after_cleanup fault path w) = w_db w.
Proof. unfold after_cleanup. by destruct (Os.exists_ _ _). Qed.

Lemma after_cleanup_queue fault path w :
  w_queue (after_cleanup fault path w) = w_queue w.
Proof. unfold after_cleanup. by destruct (Os.exists_ _ _). Qed.

Lemma after_cleanup_removals fault path w :
  removals path (after_cleanup fault path w) =
  removals path w + (if Os.exists_ (w_fs w) path then 1 else 0).
Proof.
  unfold after_cleanup, removals. destruct (Os.exists_ _ _); simpl; [|lia].
  by rewrite count_snoc, is_remove_same.
Qed.

Lemma after_cleanup_crew_calls fault path w :
  crew_calls (after_cleanup fault path w) = crew_calls w.
Proof.
  unfold after_cleanup, crew_calls. destruct (Os.exists_ _ _); simpl; [|done].
  rewrite count_snoc. simpl. lia.
Qed.

Lemma after_cleanup_commits fault path w job_id row :
  EvCommit job_id row ∈ w_trace (after_cleanup fault path w) ↔
  EvCommit job_id row ∈ w_trace w.
Proof.
  unfold after_cleanup. destruct (Os.exists_ _ _); simpl; [|done].
  rewrite elem_of_app, list_elem_of_singleton.
  split; [intros [H|H]; [done|discriminate]|by left].
Qed.

(** a file that could be removed is gone after the clean-up *)
Lemma after_cleanup_gone path w :
  Os.isfile (w_fs w) path = true →
  Os.exists_ (w_fs (after_cleanup None path w)) path = false.
Proof.
  intros H. unfold after_cleanup. rewrite (isfile_exists _ _ H).
  unfold Os.isfile in H. apply andb_true_iff in H as [_ H].
  destruct (w_fs w !! path) as [[content|]|]; try done. simpl.
  unfold Os.exists_. rewrite lookup_delete_eq.
  apply andb_false_iff. right. apply bool_decide_eq_false. by intros [? ?].
Qed.

(** a refused removal leaves the file system as it was *)
Lemma after_cleanup_refused msg path w :
  w_fs (after_cleanup (Some msg) path w) = w_fs w.
Proof. unfold after_cleanup. by destruct (Os.exists_ _ _). Qed.

Lemma after_cleanup_absent fault path w :
  Os.exists_ (w_fs w) path = false → after_cleanup fault path w = w.
Proof. unfold after_cleanup. by intros ->. Qed.

End Cleanup.

(** ** celery_tasks.py: the body of the task *)

Section TryBlock.
Import CeleryTasks.

Variables (e : env) (job_id path query : string) (w : world).

Lemma try_block_query_fault (ex : exc) :
  query_fault e = Some ex →
  try_block e job_id path query w = (Raise ex, w).
Proof. intros H. unfold try_block. unfold_prims. by rewrite H. Qed.

Lemma try_block_not_found :
  query_fault e = None → w_db w !! job_id = None →
  try_block e job_id path query w =
  (Ret (ResultError false (Some "Job not found")), w).
Proof. intros H1 H2. unfold try_block. unfold_prims. by rewrite H1, H2. Qed.

Lemma try_block_commit_fault (job : AnalysisJob.t) (ex : exc) :
  query_fault e = None → w_db w !! job_id = Some job →
  commit_processing_fault e = Some ex →
  try_block e job_id path query w = (Raise ex, w).
Proof.
  intros H1 H2 H3. unfold try_block. unfold_prims. by rewrite H1, H2, H3.
Qed.

Lemma try_block_missing (job : AnalysisJob.t) :
  query_fault e = None → w_db w !! job_id = Some job →
  commit_processing_fault e = None →
  Os.isfile (w_fs w) path = false →
  try_block e job_id path query w =
  match commit_missing_fault e with
  | None =>
      (Ret (ResultError false (Some ("File not found: " +:+ path))),
       committed job_id (failed_row ("File not found: " +:+ path) job)
         (committed job_id (processing_row job) w))
  | Some ex => (Raise ex, committed job_id (processing_row job) w)
  end.
Proof.
  intros H1 H2 H3 H4. unfold try_block. unfold_prims.
  rewrite H1, H2, H3. simpl. rewrite H4. simpl.
  by destruct (commit_missing_fault e).
Qed.

Lemma try_block_crew (job : AnalysisJob.t) :
  query_fault e = None → w_db w !! job_id = Some job →
  commit_processing_fault e = None →
  Os.isfile (w_fs w) path = true →
  let w1 := logged (EvCrew query path) (committed job_id (processing_row job) w) in
  try_block e job_id path query w =
  match crew_result e with
  | Raise ex =>
      if is_Exception ex then
        match commit_final_fault e with
        | None => (Ret (ResultJob false job_id),
                   committed job_id (failed_row (str ex) job) w1)
        | Some ex' => (Raise ex', w1)
        end
      else (Raise ex, w1)
  | Ret result =>
      match commit_final_fault e with
      | None => (Ret (ResultJob true job_id),
                 committed job_id (completed_row result job) w1)
      | Some ex' => (Raise ex', w1)
      end
  end.
Proof.
  intros H1 H2 H3 H4. unfold try_block, _run_crew_sync. unfold_prims.
  rewrite H1, H2, H3. simpl. rewrite H4. simpl.
  destruct (crew_result e) as [result|ex]; simpl.
  - by destruct (commit_final_fault e).
  - destruct (is_Exception ex); [|done].
    by destruct (commit_final_fault e).
Qed.

End TryBlock.

(** ** celery_tasks.py: the task *)

Section Task.
Import CeleryTasks.


(** Every world the body of the task can leave: nothing written, or the
    PROCESSING row committed and then, at most, the crew called and one
    more row committed. *)
Lemma try_block_world (e : env) (job_id path query : string) (w : world) :
  let w' := (try_block e job_id path query w).2 in
  w' = w
  ∨ ∃ job, w_db w !! job_id = Some job
      ∧ let w1 := committed job_id (processing_row job) w in
        w' = w1
        ∨ w' = committed job_id
                 (failed_row ("File not found: " +:+ path) job) w1
        ∨ w' = logged (EvCrew query path) w1
        ∨ ∃ row, ((∃ r, row = completed_row r job)
                  ∨ (∃ m, row = failed_row m job))
                 ∧ w' = committed job_id row (logged (EvCrew query path) w1).
Proof.
  simpl. destruct (query_fault e) as [ex|] eqn:Hq.
  { left. by rewrite (try_block_query_fault _ _ _ _ _ ex Hq). }
  destruct (w_db w !! job_id) as [job|] eqn:Hjob.
  2: { left. by rewrite try_block_not_found. }
  destruct (commit_processing_fault e) as [ex|] eqn:Hc1.
  { left. by rewrite (try_block_commit_fault _ _ _ _ _ job ex Hq Hjob Hc1). }
  right. exists job. split; [done|].
  destruct (Os.isfile (w_fs w) path) eqn:Hfile.
  - rewrite (try_block_crew _ _ _ _ _ job Hq Hjob Hc1 Hfile).
    destruct (crew_result e) as [r|ex].
    + destruct (commit_final_fault e); simpl; [by auto|].
      right; right; right. eexists. split; [left; by eexists|done].
    + destruct (is_Exception ex); [|by auto].
      destruct (commit_final_fault e); simpl; [by auto|].
      right; right; right. eexists. split; [right; by eexists|done].
  - rewrite (try_block_missing _ _ _ _ _ job Hq Hjob Hc1 Hfile).
    destruct (commit_missing_fault e); simpl; by auto.
Qed.

Lemma try_block_fs (e : env) (job_id path query : string) (w : world) :
  w_fs (try_block e job_id path query w).2 = w_fs w.
Proof.
  destruct (try_block_world e job_id path query w)
    as [->|(job & _ & [->|[->|[->|(row & _ & ->)]]])]; done.
Qed.

Lemma try_block_removals (e : env) (job_id path query p : string) (w : world) :
  removals p (try_block e job_id path query w).2 = removals p w.
Proof.
  destruct (try_block_world e job_id path query w)
    as [->|(job & _ & [->|[->|[->|(row & _ & ->)]]])];
    unfold removals, committed, logged; simpl;
    rewrite ?count_snoc; simpl; lia.
Qed.




(** C5, as the code has it.  When there is no job [job_id] (and the query
    itself goes well) the task reports "Job not found", writes no row and
    does not call the crew; the clean-up runs all the same: if something
    exists at [path], one [os.remove(path)] is attempted, and a file there
    is gone unless the removal is refused. *)
Theorem job_not_found_still_cleans (e : env) (job_id path query : string)
    (orig : option string) (w : world) :
  query_fault e = None →
  w_db w !! job_id = None →
  let rw := run_analysis_task e job_id path query orig w in
  rw.1 = Ret (ResultError false (Some "Job not found"))
  ∧ w_db rw.2 = w_db w
  ∧ (∀ id row, EvCommit id row ∈ w_trace rw.2 → EvCommit id row ∈ w_trace w)
  ∧ crew_calls rw.2 = crew_calls w
  ∧ (Os.exists_ (w_fs w) path = true →
     removals path rw.2 = S (removals path w))
  ∧ (Os.isfile (w_fs w) path = true → remove_fault e = None →
     Os.exists_ (w_fs rw.2) path = false)
  ∧ (Os.exists_ (w_fs w) path = false → rw.2 = w).
Proof.
  intros Hq Hjob. simpl. rewrite run_analysis_task_run.
  rewrite (try_block_not_found e job_id path query w Hq Hjob). simpl.
  split; [done|]. split; [apply after_cleanup_db|].
  split; [intros id row; by rewrite after_cleanup_commits|].
  split; [apply after_cleanup_crew_calls|].
  split; [|split].
  - intros H. rewrite after_cleanup_removals, H. lia.
  - intros H ->. by apply after_cleanup_gone.
  - apply after_cleanup_absent.
Qed.

Lemma job_not_found_still_cleans_witness :
  Os.exists_
    (w_fs (run_analysis_task Sample.quiet "42" Sample.pdf_path
             "Summarize this report" None Sample.no_job_world).2)
    Sample.pdf_path = false.
Proof.
  refine (proj1 (proj2 (proj2 (proj2 (proj2 (proj2
    (job_not_found_still_cleans Sample.quiet "42" Sample.pdf_path
       "Summarize this report" None Sample.no_job_world _ _)))))) _ _).
  - reflexivity.
  - vm_compute. reflexivity.
  - vm_compute. reflexivity.
  - reflexivity.
Defined.

(** C5, as the spec has it, fails: with no job "42" and a file at the path
    passed to the task, the task reports "Job not found" and the file is
    removed. *)
Lemma job_not_found_removes_file :
  let w := Sample.no_job_world in
  let rw := run_analysis_task Sample.quiet "42" Sample.pdf_path
              "Summarize this report" None w in
  w_db w !! "42" = None
  ∧ Os.exists_ (w_fs w) Sample.pdf_path = true
  ∧ rw.1 = Ret (ResultError false (Some "Job not found"))
  ∧ removals Sample.pdf_path rw.2 = 1
  ∧ Os.exists_ (w_fs rw.2) Sample.pdf_path = false.
Proof. vm_compute. repeat split. Qed.

(** C6, as the code has it.  An [Exception] raised by the crew is caught:
    when the lookup, the first commit and the last commit go well, the job
    becomes FAILED with [str] of the exception as its error message and
    the task returns normally.  Nothing else is caught: what the crew
    raises outside [Exception], what the lookup raises and what any of the
    three commits raises -- the last one also after a caught crew
    [Exception] -- is raised by the task to its caller.  At the end of
    the task the rows are then as at its start (lookup or first commit
    failed) or differ from them only in this job, which is PROCESSING.
    In every case the clean-up has run: one [os.remove(path)] if something
    exists at [path], none otherwise. *)
Theorem crew_exception_fails_job (e : env) (job_id path query : string)
    (orig : option string) (w : world) :
  let rw := run_analysis_task e job_id path query orig w in
  (∀ job ex,
     w_db w !! job_id = Some job → Os.isfile (w_fs w) path = true →
     query_fault e = None → commit_processing_fault e = None →
     commit_final_fault e = None →
     crew_result e = Raise ex → is_Exception ex = true →
     rw.1 = Ret (ResultJob false job_id)
     ∧ ∃ row, w_db rw.2 !! job_id = Some row
              ∧ AnalysisJob.status row = JobStatus.FAILED
              ∧ AnalysisJob.error_message row = Some (str ex))
  ∧ (∀ job ex,
     w_db w !! job_id = Some job → Os.isfile (w_fs w) path = true →
     query_fault e = None → commit_processing_fault e = None →
     crew_result e = Raise ex → is_Exception ex = false →
     rw.1 = Raise ex
     ∧ w_db rw.2 = <[job_id := processing_row job]> (w_db w))
  ∧ (∀ ex, query_fault e = Some ex →
     rw.1 = Raise ex ∧ w_db rw.2 = w_db w)
  ∧ (∀ job ex,
     w_db w !! job_id = Some job →
     query_fault e = None → commit_processing_fault e = Some ex →
     rw.1 = Raise ex ∧ w_db rw.2 = w_db w)
  ∧ (∀ job ex,
     w_db w !! job_id = Some job → Os.isfile (w_fs w) path = false →
     query_fault e = None → commit_processing_fault e = None →
     commit_missing_fault e = Some ex →
     rw.1 = Raise ex
     ∧ w_db rw.2 = <[job_id := processing_row job]> (w_db w))
  ∧ (∀ job ex,
     w_db w !! job_id = Some job → Os.isfile (w_fs w) path = true →
     query_fault e = None → commit_processing_fault e = None →
     (∀ ex', crew_result e = Raise ex' → is_Exception ex' = true) →
     commit_final_fault e = Some ex →
     rw.1 = Raise ex
     ∧ w_db rw.2 = <[job_id := processing_row job]> (w_db w))
  ∧ removals path rw.2
    = removals path w + (if Os.exists_ (w_fs w) path then 1 else 0).
Proof.
  simpl. rewrite run_analysis_task_run.
  split; [|split; [|split; [|split; [|split; [|split]]]]].
  - intros job ex Hjob Hfile Hq Hc1 Hc3 Hcrew Hex.
    rewrite (try_block_crew e job_id path query w job Hq Hjob Hc1 Hfile).
    rewrite Hcrew, Hex, Hc3. cbn [fst snd]. split; [done|].
    eexists. rewrite after_cleanup_db. split; [apply lookup_insert_eq|done].
  - intros job ex Hjob Hfile Hq Hc1 Hcrew Hex.
    rewrite (try_block_crew e job_id path query w job Hq Hjob Hc1 Hfile).
    rewrite Hcrew, Hex. cbn [fst snd]. split; [done|].
    by rewrite after_cleanup_db.
  - intros ex Hq.
    rewrite (try_block_query_fault e job_id path query w ex Hq).
    split; [done|apply after_cleanup_db].
  - intros job ex Hjob Hq Hc1.
    rewrite (try_block_commit_fault e job_id path query w job ex Hq Hjob Hc1).
    split; [done|apply after_cleanup_db].
  - intros job ex Hjob Hfile Hq Hc1 Hc2.
    rewrite (try_block_missing e job_id path query w job Hq Hjob Hc1 Hfile), Hc2.
    cbn [fst snd]. split; [done|]. by rewrite after_cleanup_db.
  - intros job ex Hjob Hfile Hq Hc1 Hcaught Hc3.
    rewrite (try_block_crew e job_id path query w job Hq Hjob Hc1 Hfile).
    rewrite Hc3. destruct (crew_result e) as [result|ex'].
    + cbn [fst snd]. split; [done|]. by rewrite after_cleanup_db.
    + rewrite (Hcaught ex' eq_refl). cbn [fst snd]. split; [done|].
      by rewrite after_cleanup_db.
  - cbn [fst snd].
    by rewrite after_cleanup_removals, try_block_removals, try_block_fs.
Qed.

Lemma crew_exception_fails_job_witness :
  (run_analysis_task Sample.crew_down "42" Sample.pdf_path
     "Summarize this report" (Some "report.pdf") Sample.fresh_world).1
  = Ret (ResultJob false "42").
Proof.
  refine (proj1 (proj1 (crew_exception_fails_job Sample.crew_down "42"
                          Sample.pdf_path "Summarize this report"
                          (Some "report.pdf") Sample.fresh_world)
                   Sample.pending_job (Exc "quota exceeded")
                   _ _ _ _ _ _ _)).
  - vm_compute. reflexivity.
  - vm_compute. reflexivity.
  - reflexivity.
  - reflexivity.
  - reflexivity.
  - reflexivity.
  - reflexivity.
Defined.

(** C6, as the spec has it, fails: a failure raised inside the task by the
    first [db.commit()] is not caught; the task raises it and the job is
    not FAILED. *)
Lemma store_fault_escapes_task :
  let rw := run_analysis_task Sample.store_locked "42" Sample.pdf_path
              "Summarize this report" (Some "report.pdf")
              Sample.fresh_world in
  rw.1 = Raise (Exc "database is locked")
  ∧ status_of rw.2 "42" = Some JobStatus.PENDING.
Proof. vm_compute. repeat split. Qed.


(** The body of the task does not look at what [os.remove] will answer. *)
Lemma try_block_remove_fault (fault : option string) (e : env)
    (job_id path query : string) (w : world) :
  try_block (with_remove_fault fault e) job_id path query w
  = try_block e job_id path query w.
Proof. reflexivity. Qed.

(** The worker half of C1. *)
Lemma task_cleans_up (e : env) (job_id path query : string)
    (orig : option string) (w : world) :
  Os.isfile (w_fs w) path = true →
  let rw := run_analysis_task e job_id path query orig w in
  removals path rw.2 = S (removals path w)
  ∧ (remove_fault e = None → Os.exists_ (w_fs rw.2) path = false)
  ∧ (∀ msg, remove_fault e = Some msg → Os.isfile (w_fs rw.2) path = true)
  ∧ (∀ fault,
       let rw' := run_analysis_task (with_remove_fault fault e)
                    job_id path query orig w in
       rw'.1 = rw.1 ∧ w_db rw'.2 = w_db rw.2).
Proof.
  intros Hfile. simpl. rewrite run_analysis_task_run. cbn [fst snd].
  split; [|split; [|split]].
  - rewrite after_cleanup_removals, try_block_removals, try_block_fs.
    rewrite (isfile_exists _ _ Hfile). lia.
  - intros ->. apply after_cleanup_gone. by rewrite try_block_fs.
  - intros msg ->. by rewrite after_cleanup_refused, try_block_fs.
  - intros fault. rewrite run_analysis_task_run, try_block_remove_fault.
    cbn [fst snd]. by rewrite !after_cleanup_db.
Qed.

(** C3, as the code has it.  The task has no check for a job that is
    already terminal.  When a first run removed the file and left the job
    terminal, a second run (its store calls going well) commits PROCESSING
    again, finds no file and ends FAILED with "File not found: <path>",
    the result text staying as the first run left it; it calls neither
    the crew nor [os.remove], so that one removal is attempted over both
    runs. *)
Theorem second_run_fails_job (e1 e2 : env) (job_id path query : string)
    (orig : option string) (w : world) (row1 : AnalysisJob.t) :
  Os.isfile (w_fs w) path = true →
  remove_fault e1 = None →
  let rw1 := run_analysis_task e1 job_id path query orig w in
  w_db rw1.2 !! job_id = Some row1 →
  JobStatus.terminal (AnalysisJob.status row1) = true →
  store_up e2 →
  let rw2 := run_analysis_task e2 job_id path query orig rw1.2 in
  rw2.1 = Ret (ResultError false (Some ("File not found: " +:+ path)))
  ∧ (∃ row2, w_db rw2.2 !! job_id = Some row2
             ∧ AnalysisJob.status row2 = JobStatus.FAILED
             ∧ AnalysisJob.error_message row2
               = Some ("File not found: " +:+ path)
             ∧ AnalysisJob.result_text row2 = AnalysisJob.result_text row1)
  ∧ EvCommit job_id (processing_row row1) ∈ w_trace rw2.2
  ∧ crew_calls rw2.2 = crew_calls rw1.2
  ∧ removals path rw2.2 = removals path rw1.2
  ∧ removals path rw2.2 = S (removals path w).
Proof.
  intros Hfile Hrm rw1 Hrow1 _ (Hq & Hc1 & Hc2 & _) rw2.
  destruct (task_cleans_up e1 job_id path query orig w Hfile)
    as (Hcount & Hgone & _). fold rw1 in Hcount, Hgone.
  specialize (Hgone Hrm).
  assert (Os.isfile (w_fs rw1.2) path = false) as Hfile1.
  { destruct (Os.isfile (w_fs rw1.2) path) eqn:E; [|done].
    apply isfile_exists in E. congruence. }
  assert (rw2 = ((Ret (ResultError false (Some ("File not found: " +:+ path)))),
                 committed job_id (failed_row ("File not found: " +:+ path) row1)
                   (committed job_id (processing_row row1) rw1.2))) as ->.
  { unfold rw2. rewrite run_analysis_task_run.
    rewrite (try_block_missing e2 job_id path query rw1.2 row1 Hq Hrow1 Hc1 Hfile1).
    rewrite Hc2. cbn [fst snd]. f_equal. by apply after_cleanup_absent. }
  cbn [fst snd]. split; [done|]. split; [|split; [|split; [|split]]].
  - eexists. split; [apply lookup_insert_eq|]. done.
  - simpl. rewrite !elem_of_app, !list_elem_of_singleton. auto.
  - unfold crew_calls. simpl. rewrite !count_snoc. simpl. lia.
  - unfold removals. simpl. rewrite !count_snoc. simpl. lia.
  - rewrite <- Hcount. unfold removals. simpl. rewrite !count_snoc. simpl. lia.
Qed.

Lemma second_run_fails_job_witness :
  let rw1 := run_analysis_task Sample.quiet "42" Sample.pdf_path
               "Summarize this report" (Some "report.pdf")
               Sample.fresh_world in
  (run_analysis_task Sample.quiet "42" Sample.pdf_path
     "Summarize this report" (Some "report.pdf") rw1.2).1
  = Ret (ResultError false (Some ("File not found: " +:+ Sample.pdf_path))).
Proof.
  refine (proj1 (second_run_fails_job Sample.quiet Sample.quiet "42"
                   Sample.pdf_path "Summarize this report" (Some "report.pdf")
                   Sample.fresh_world
                   (completed_row "Revenue grew 12%." Sample.pending_job)
                   _ _ _ _ _)).
  - vm_compute. reflexivity.
  - reflexivity.
  - vm_compute. reflexivity.
  - reflexivity.
  - repeat split.
Defined.

(** C3, as the spec has it, fails: after a first run that completed the
    job, a second run is no no-op -- it leaves the job FAILED, with an
    error message. *)
Lemma second_run_changes_job :
  let rw1 := run_analysis_task Sample.quiet "42" Sample.pdf_path
               "Summarize this report" (Some "report.pdf")
               Sample.fresh_world in
  let rw2 := run_analysis_task Sample.quiet "42" Sample.pdf_path
               "Summarize this report" (Some "report.pdf") rw1.2 in
  status_of rw1.2 "42" = Some JobStatus.COMPLETED
  ∧ AnalysisJob.error_message <$> w_db rw1.2 !! "42" = Some None
  ∧ status_of rw2.2 "42" = Some JobStatus.FAILED
  ∧ AnalysisJob.error_message <$> w_db rw2.2 !! "42"
    = Some (Some "File not found: data/uploads/financial_document_42.pdf").
Proof. vm_compute. repeat split. Qed.

(** *** The result and the error fit the status *)

Lemma store_fits_committed (job_id : string) (row : AnalysisJob.t) (w : world) :
  outcome_fits row = true → store_fits w → store_fits (committed job_id row w).
Proof.
  intros Hrow [Hdb Htr]. split; simpl.
  - intros id job. rewrite lookup_insert.
    case_decide; [by intros [= <-]|apply Hdb].
  - intros id r. rewrite elem_of_app, list_elem_of_singleton.
    intros [H|[= -> ->]]; [by eapply Htr|done].
Qed.

Lemma store_fits_trace (w w' : world) :
  w_db w' = w_db w →
  (∀ id row, EvCommit id row ∈ w_trace w' → EvCommit id row ∈ w_trace w) →
  store_fits w → store_fits w'.
Proof.
  intros Hdb Htr [H1 H2]. split.
  - rewrite Hdb. apply H1.
  - intros id row H. by eapply H2, Htr.
Qed.

Lemma store_fits_logged_crew (query path : string) (w : world) :
  store_fits w → store_fits (logged (EvCrew query path) w).
Proof.
  apply store_fits_trace; [done|]. intros id row. simpl.
  rewrite elem_of_app, list_elem_of_singleton. by intros [?|?].
Qed.

Lemma store_fits_after_cleanup (fault : option string) (path : string)
    (w : world) :
  store_fits w → store_fits (after_cleanup fault path w).
Proof.
  apply store_fits_trace; [apply after_cleanup_db|].
  intros id row. by rewrite after_cleanup_commits.
Qed.

Lemma processing_row_fits (job : AnalysisJob.t) :
  JobStatus.terminal (AnalysisJob.status job) = false →
  outcome_fits job = true → outcome_fits (processing_row job) = true.
Proof. destruct job as [[] ? ? ? ? ?]; done. Qed.

Lemma failed_row_fits (msg : string) (job : AnalysisJob.t) :
  JobStatus.terminal (AnalysisJob.status job) = false →
  outcome_fits job = true → outcome_fits (failed_row msg job) = true.
Proof. destruct job as [[] ? ? ? [r|] ?]; done. Qed.

Lemma completed_row_fits (result : string) (job : AnalysisJob.t) :
  outcome_fits (completed_row result job) = true.
Proof. done. Qed.

(** The worker half of C2. *)
Lemma task_keeps_fit (e : env) (job_id path query : string)
    (orig : option string) (w : world) :
  store_fits w →
  (∀ job, w_db w !! job_id = Some job →
          JobStatus.terminal (AnalysisJob.status job) = false) →
  store_fits (run_analysis_task e job_id path query orig w).2.
Proof.
  intros Hw Hnt. rewrite run_analysis_task_run. cbn [fst snd].
  apply store_fits_after_cleanup.
  destruct (try_block_world e job_id path query w)
    as [->|(job & Hjob & Hcases)]; [done|].
  pose proof (Hnt job Hjob) as Hjnt.
  pose proof (proj1 Hw job_id job Hjob) as Hjfit.
  pose proof (processing_row_fits job Hjnt Hjfit) as Hp.
  pose proof (store_fits_committed job_id _ w Hp Hw) as Hw1.
  destruct Hcases as [->|[->|[->|(row & Hrow & ->)]]].
  - done.
  - apply store_fits_committed; [by apply failed_row_fits|done].
  - by apply store_fits_logged_crew.
  - apply store_fits_committed; [|by apply store_fits_logged_crew].
    destruct Hrow as [[r ->]|[m ->]];
      [apply completed_row_fits|by apply failed_row_fits].
Qed.

End Task.

(** ** main.py: the endpoints *)

Section Gateway.
Import Main.

Variable DATA_DIR : string.

Lemma truthy_app_r (a b : string) : truthy b = true → truthy (a +:+ b) = true.
Proof. destruct a; [done|]. by rewrite app_cons. Qed.

Lemma upload_path_truthy (file_id : string) :
  truthy (upload_path DATA_DIR file_id) = true.
Proof.
  unfold upload_path, os_path_join.
  change (is_abs ("financial_document_" +:+ file_id +:+ ".pdf")) with false.
  cbv iota. by destruct (_ || _); repeat apply truthy_app_r.
Qed.

Lemma save_upload_run (fault : option Os.write_failure)
    (path content : string) (w : world) :
  save_upload fault path content w =
  match fault with
  | Some f => (Raise (HTTPException 500
                        ("Failed to save file: " +:+ Os.reason f)),
               failed_write f path w)
  | None => (Ret (), written path content w)
  end.
Proof.
  unfold save_upload. unfold_prims. by destruct fault as [[msg|msg part]|].
Qed.

Lemma written_isfile (path content : string) (w : world) :
  truthy path = true → Os.isfile (w_fs (written path content w)) path = true.
Proof. intros H. unfold Os.isfile. simpl. by rewrite H, lookup_insert_eq. Qed.

Lemma analyze_sync_run (e : sync_env) (filename : option string)
    (content : string) (query : option string) (w : world) :
  not_a_pdf filename = false →
  let path := upload_path DATA_DIR (s_uuid e) in
  analyze_sync DATA_DIR e filename content query w =
  match s_write_fault e with
  | Some f => (Raise (HTTPException 500
                        ("Failed to save file: " +:+ Os.reason f)),
               failed_write f path w)
  | None =>
      (sync_answer e filename (effective_query query),
       after_cleanup (s_remove_fault e) path
         (logged (EvCrew (effective_query query) path)
            (written path content w)))
  end.
Proof.
  intros Hpdf. simpl. unfold analyze_sync. rewrite Hpdf.
  unfold mbind at 1. unfold M_bind, bind. rewrite save_upload_run.
  destruct (s_write_fault e) as [msg|]; [done|].
  unfold try_finally. unfold sync_answer, run_crew.
  destruct (s_crew_result e) as [r|ex]; unfold_prims; simpl.
  - by rewrite remove_if_exists_run.
  - destruct (is_Exception ex); by rewrite remove_if_exists_run.
Qed.

Lemma analyze_sync_rejects (e : sync_env) (filename : option string)
    (content : string) (query : option string) (w : world) :
  not_a_pdf filename = true →
  analyze_sync DATA_DIR e filename content query w =
  (Raise (HTTPException 400 "A PDF file is required."), w).
Proof. intros H. unfold analyze_sync. by rewrite H. Qed.

Lemma analyze_async_rejects (e : async_env) (filename : option string)
    (content : string) (query : option string) (w : world) :
  not_a_pdf filename = true →
  analyze_async DATA_DIR e filename content query w =
  (Raise (HTTPException 400 "A PDF file is required."), w).
Proof. intros H. unfold analyze_async. by rewrite H. Qed.

Lemma analyze_async_run (e : async_env) (filename : option string)
    (content : string) (query : option string) (w : world) :
  not_a_pdf filename = false →
  let job_id := a_uuid e in
  let path := upload_path DATA_DIR job_id in
  let q := effective_query query in
  let row := new_row path filename q in
  let w1 := written path content w in
  let w2 := committed job_id row w1 in
  analyze_async DATA_DIR e filename content query w =
  match a_write_fault e with
  | Some f => (Raise (HTTPException 500
                        ("Failed to save file: " +:+ Os.reason f)),
               failed_write f path w)
  | None =>
      match a_commit_new_fault e with
      | Some ex => (Raise ex, w1)
      | None =>
          if bool_decide (is_Some (w_db w !! job_id))
          then (Raise (Exc "IntegrityError"), w1)
          else
            match a_delay_fault e with
            | None =>
                (Ret (queued_response job_id),
                 enqueued {| tm_job_id := job_id; tm_file_path := path;
                             tm_query := q;
                             tm_original_filename := filename |} w2)
            | Some ex =>
                if is_Exception ex then
                  match a_commit_failed_fault e with
                  | Some ex' => (Raise ex', w2)
                  | None =>
                      (Raise (HTTPException 503
                                "Queue unavailable; try /analyze/sync"),
                       after_cleanup (a_remove_fault e) path
                         (committed job_id (unqueued_row ex row) w2))
                  end
                else (Raise ex, w2)
            end
      end
  end.
Proof.
  intros Hpdf. simpl. unfold analyze_async. rewrite Hpdf.
  unfold mbind at 1. unfold M_bind, bind. rewrite save_upload_run.
  destruct (a_write_fault e) as [msg|]; [done|].
  unfold delay, new_row. unfold_prims. simpl.
  destruct (a_commit_new_fault e) as [ex|]; [done|]. simpl.
  destruct (bool_decide (is_Some (w_db w !! a_uuid e))); [done|]. simpl.
  destruct (a_delay_fault e) as [ex|]; [|done]. simpl.
  destruct (is_Exception ex); [|done].
  destruct (a_commit_failed_fault e) as [ex'|]; [done|]. simpl.
  by rewrite remove_if_exists_run.
Qed.

(** C9.  An upload without a file name, or with one that does not end in
    ".pdf" whatever the case, is rejected by both endpoints with the
    status 400, and the world is as before: no file written, no row
    created, nothing queued. *)
Theorem non_pdf_upload_rejected (se : sync_env) (ae : async_env)
    (filename : option string) (content : string) (query : option string)
    (w : world) :
  missing_or_not_pdf filename →
  analyze_sync DATA_DIR se filename content query w
  = (Raise (HTTPException 400 "A PDF file is required."), w)
  ∧ analyze_async DATA_DIR ae filename content query w
    = (Raise (HTTPException 400 "A PDF file is required."), w).
Proof.
  intros H%not_a_pdf_spec.
  by rewrite analyze_sync_rejects, analyze_async_rejects.
Qed.

Lemma after_cleanup_trace (fault : option string) (path : string) (w : world)
    (ev : event) :
  ev ∈ w_trace (after_cleanup fault path w) →
  ev ∈ w_trace w ∨ ev = EvRemove path.
Proof.
  unfold after_cleanup. destruct (Os.exists_ _ _); simpl; [|by left].
  by rewrite elem_of_app, list_elem_of_singleton.
Qed.

(** The synchronous half of C8. *)
Lemma sync_blank_query (e : sync_env) (filename : option string)
    (content : string) (query : option string) (w : world) :
  blank_query query →
  let rw := analyze_sync DATA_DIR e filename content query w in
  (∀ q p, EvCrew q p ∈ w_trace rw.2 →
          EvCrew q p ∈ w_trace w ∨ q = DEFAULT_QUERY)
  ∧ (∀ resp, rw.1 = Ret resp → sr_query resp = DEFAULT_QUERY)
  ∧ (not_a_pdf filename = false → s_write_fault e = None →
     crew_calls rw.2 = S (crew_calls w)).
Proof.
  intros Hq%effective_query_blank. simpl.
  destruct (not_a_pdf filename) eqn:Hpdf.
  { rewrite analyze_sync_rejects by done. simpl. split; [by auto|done]. }
  rewrite analyze_sync_run, Hq by done.
  destruct (s_write_fault e) as [msg|]; cbn [fst snd].
  - split; [|done]. simpl. intros q p.
    rewrite elem_of_app, list_elem_of_singleton. by intros [?|?]; [left|].
  - split; [|split].
    + intros q p [H| [=]]%after_cleanup_trace. simpl in H.
      rewrite !elem_of_app, !list_elem_of_singleton in H.
      destruct H as [[?|[=]]|[= -> ->]]; by auto.
    + unfold sync_answer. intros resp.
      destruct (s_crew_result e) as [r|ex]; [by intros [= <-]|].
      by destruct (is_Exception ex).
    + intros _ _. rewrite after_cleanup_crew_calls. unfold crew_calls. simpl.
      rewrite !count_snoc. simpl. lia.
Qed.

(** The asynchronous half of C8. *)
Lemma async_blank_query (e : async_env) (filename : option string)
    (content : string) (query : option string) (w : world) :
  blank_query query →
  let rw := analyze_async DATA_DIR e filename content query w in
  (∀ id row, w_db rw.2 !! id = Some row →
             w_db w !! id = Some row
             ∨ AnalysisJob.query row = Some DEFAULT_QUERY)
  ∧ (∀ msg, msg ∈ w_queue rw.2 →
            msg ∈ w_queue w ∨ tm_query msg = DEFAULT_QUERY)
  ∧ (∀ resp, rw.1 = Ret resp →
       (∃ row, w_db rw.2 !! ar_job_id resp = Some row
               ∧ AnalysisJob.query row = Some DEFAULT_QUERY)
       ∧ ∃ msg, msg ∈ w_queue rw.2 ∧ tm_job_id msg = ar_job_id resp
                ∧ tm_query msg = DEFAULT_QUERY)
  ∧ (not_a_pdf filename = false → a_write_fault e = None →
     a_commit_new_fault e = None → w_db w !! a_uuid e = None →
     a_delay_fault e = None → rw.1 = Ret (queued_response (a_uuid e))).
Proof.
  intros Hq%effective_query_blank.
  set (async_claims := λ rw : outcome AnalyzeResponse * world,
    (∀ id row, w_db rw.2 !! id = Some row →
               w_db w !! id = Some row
               ∨ AnalysisJob.query row = Some DEFAULT_QUERY)
    ∧ (∀ msg, msg ∈ w_queue rw.2 →
              msg ∈ w_queue w ∨ tm_query msg = DEFAULT_QUERY)
    ∧ (∀ resp, rw.1 = Ret resp →
         (∃ row, w_db rw.2 !! ar_job_id resp = Some row
                 ∧ AnalysisJob.query row = Some DEFAULT_QUERY)
         ∧ ∃ msg, msg ∈ w_queue rw.2 ∧ tm_job_id msg = ar_job_id resp
                  ∧ tm_query msg = DEFAULT_QUERY)).
  cut (async_claims (analyze_async DATA_DIR e filename content query w)
       ∧ (not_a_pdf filename = false → a_write_fault e = None →
          a_commit_new_fault e = None → w_db w !! a_uuid e = None →
          a_delay_fault e = None →
          (analyze_async DATA_DIR e filename content query w).1
          = Ret (queued_response (a_uuid e)))).
  { unfold async_claims. simpl. tauto. }
  split.
  2: { intros Hpdf Hw Hc Hfresh Hd. rewrite analyze_async_run by done.
       rewrite Hw, Hc, Hfresh, Hd.
       by rewrite bool_decide_eq_false_2 by by intros [? ?]. }
  destruct (not_a_pdf filename) eqn:Hpdf.
  { rewrite analyze_async_rejects by done. unfold async_claims. simpl.
    split; [by auto|]. split; [by auto|done]. }
  rewrite analyze_async_run, Hq by done.
  assert (∀ w' : world, w_db w' = w_db w → w_queue w' = w_queue w →
            ∀ ex : exc, async_claims (Raise ex, w')) as Hsame.
  { intros w' Hdb Hqueue ex. unfold async_claims. cbn [fst snd].
    rewrite Hdb, Hqueue. split; [by auto|]. split; [by auto|]. done. }
  assert (∀ id row r,
            <[a_uuid e := r]> (w_db w) !! id = Some row →
            AnalysisJob.query r = Some DEFAULT_QUERY →
            w_db w !! id = Some row
            ∨ AnalysisJob.query row = Some DEFAULT_QUERY) as Hins.
  { intros id row r. rewrite lookup_insert.
    case_decide; [intros [= <-]; by right|by left]. }
  assert (∀ (w' : world) r,
            w_db w' = <[a_uuid e := r]> (w_db w) →
            AnalysisJob.query r = Some DEFAULT_QUERY →
            w_queue w' = w_queue w →
            ∀ ex : exc, async_claims (Raise ex, w')) as Hrow.
  { intros w' r Hdb Hr Hqueue ex. unfold async_claims. cbn [fst snd].
    rewrite Hdb, Hqueue. split; [|split; [by auto|done]].
    intros id row H. by eapply Hins. }
  destruct (a_write_fault e) as [msg|]; [by apply Hsame|].
  destruct (a_commit_new_fault e) as [ex|]; [by apply Hsame|].
  destruct (w_db w !! a_uuid e) as [old|] eqn:Hold.
  { rewrite bool_decide_eq_true_2 by by eexists. by apply Hsame. }
  rewrite bool_decide_eq_false_2 by by intros [? ?].
  destruct (a_delay_fault e) as [ex|].
  - destruct (is_Exception ex); [|by eapply Hrow].
    destruct (a_commit_failed_fault e) as [ex'|]; [by eapply Hrow|].
    eapply Hrow;
      [rewrite after_cleanup_db; simpl; by rewrite insert_insert_eq
      |reflexivity
      |by rewrite after_cleanup_queue].
  - unfold async_claims. cbn [fst snd]. simpl.
    split; [|split].
    + intros id row H. by eapply Hins.
    + intros msg. rewrite elem_of_app, list_elem_of_singleton.
      intros [?| ->]; by auto.
    + intros ? [= <-]. simpl. split.
      * eexists. by rewrite lookup_insert_eq.
      * eexists. rewrite elem_of_app, list_elem_of_singleton.
        split; [by right|done].
Qed.

(** C8.  When the query field of the request is absent, empty or white
    space only, the query is the default prompt wherever it goes: in every
    call of the crew and in the answer of the synchronous endpoint, and in
    every row written and every message queued by the asynchronous one --
    which, when it accepts the request, has stored such a row and queued
    such a message. *)
Theorem blank_query_defaults (se : sync_env) (ae : async_env)
    (filename : option string) (content : string) (query : option string)
    (w : world) :
  blank_query query →
  let rs := analyze_sync DATA_DIR se filename content query w in
  let ra := analyze_async DATA_DIR ae filename content query w in
  ((∀ q p, EvCrew q p ∈ w_trace rs.2 →
           EvCrew q p ∈ w_trace w ∨ q = DEFAULT_QUERY)
   ∧ (∀ resp, rs.1 = Ret resp → sr_query resp = DEFAULT_QUERY)
   ∧ (not_a_pdf filename = false → s_write_fault se = None →
      crew_calls rs.2 = S (crew_calls w)))
  ∧ ((∀ id row, w_db ra.2 !! id = Some row →
                w_db w !! id = Some row
                ∨ AnalysisJob.query row = Some DEFAULT_QUERY)
     ∧ (∀ msg, msg ∈ w_queue ra.2 →
               msg ∈ w_queue w ∨ tm_query msg = DEFAULT_QUERY)
     ∧ (∀ resp, ra.1 = Ret resp →
          (∃ row, w_db ra.2 !! ar_job_id resp = Some row
                  ∧ AnalysisJob.query row = Some DEFAULT_QUERY)
          ∧ ∃ msg, msg ∈ w_queue ra.2 ∧ tm_job_id msg = ar_job_id resp
                   ∧ tm_query msg = DEFAULT_QUERY)
     ∧ (not_a_pdf filename = false → a_write_fault ae = None →
        a_commit_new_fault ae = None → w_db w !! a_uuid ae = None →
        a_delay_fault ae = None → ra.1 = Ret (queued_response (a_uuid ae)))).
Proof.
  intros Hq. split.
  - by apply sync_blank_query.
  - by apply async_blank_query.
Qed.

(** The synchronous half of C1. *)
Lemma sync_cleans_up (e : sync_env) (filename : option string)
    (content : string) (query : option string) (w : world) :
  not_a_pdf filename = false →
  s_write_fault e = None →
  let path := upload_path DATA_DIR (s_uuid e) in
  let rw := analyze_sync DATA_DIR e filename content query w in
  removals path rw.2 = S (removals path w)
  ∧ (s_remove_fault e = None → Os.exists_ (w_fs rw.2) path = false)
  ∧ (∀ msg, s_remove_fault e = Some msg → Os.isfile (w_fs rw.2) path = true)
  ∧ (∀ fault,
       (analyze_sync DATA_DIR (sync_with_remove_fault fault e)
          filename content query w).1 = rw.1).
Proof.
  intros Hpdf Hw. simpl. rewrite analyze_sync_run, Hw by done.
  cbn [fst snd].
  pose proof (upload_path_truthy (s_uuid e)) as Hpath.
  set (path := upload_path DATA_DIR (s_uuid e)) in *.
  set (w1 := logged (EvCrew (effective_query query) path)
                    (written path content w)).
  assert (Os.isfile (w_fs w1) path = true) as Hfile
    by by apply written_isfile.
  split; [|split; [|split]].
  - rewrite after_cleanup_removals, (isfile_exists _ _ Hfile).
    unfold removals, w1. simpl. rewrite !count_snoc. simpl. lia.
  - intros ->. by apply after_cleanup_gone.
  - intros msg ->. by rewrite after_cleanup_refused.
  - intros fault. rewrite analyze_sync_run by done. simpl. by rewrite Hw.
Qed.

(** C1, as the code has it.  When the file exists as the task starts, the
    task calls [os.remove] on it once, however it ends (returning or
    raising); the file is gone if the removal goes through, and is still
    there if the removal is refused; what the removal answers changes
    neither what the task returns or raises nor the rows of the store.
    The synchronous endpoint does the same for the upload it saved. *)
Theorem cleanup_after_processing (te : CeleryTasks.env)
    (job_id path tquery : string) (orig : option string)
    (se : sync_env) (filename : option string) (content : string)
    (query : option string) (w : world) :
  (Os.isfile (w_fs w) path = true →
   let rw := CeleryTasks.run_analysis_task te job_id path tquery orig w in
   removals path rw.2 = S (removals path w)
   ∧ (CeleryTasks.remove_fault te = None →
      Os.exists_ (w_fs rw.2) path = false)
   ∧ (∀ msg, CeleryTasks.remove_fault te = Some msg →
             Os.isfile (w_fs rw.2) path = true)
   ∧ (∀ fault,
        let rw' := CeleryTasks.run_analysis_task (with_remove_fault fault te)
                     job_id path tquery orig w in
        rw'.1 = rw.1 ∧ w_db rw'.2 = w_db rw.2))
  ∧ (not_a_pdf filename = false → s_write_fault se = None →
     let upload := upload_path DATA_DIR (s_uuid se) in
     let rw := analyze_sync DATA_DIR se filename content query w in
     removals upload rw.2 = S (removals upload w)
     ∧ (s_remove_fault se = None → Os.exists_ (w_fs rw.2) upload = false)
     ∧ (∀ msg, s_remove_fault se = Some msg →
               Os.isfile (w_fs rw.2) upload = true)
     ∧ (∀ fault,
          (analyze_sync DATA_DIR (sync_with_remove_fault fault se)
             filename content query w).1 = rw.1)).
Proof.
  split.
  - apply task_cleans_up.
  - apply sync_cleans_up.
Qed.

Lemma store_fits_written (path content : string) (w : world) :
  store_fits w → store_fits (written path content w).
Proof.
  apply store_fits_trace; [done|]. intros id row. simpl.
  rewrite elem_of_app, list_elem_of_singleton. by intros [?|?].
Qed.

Lemma store_fits_logged_write (path : string) (w : world) :
  store_fits w → store_fits (logged (EvWrite path) w).
Proof.
  apply store_fits_trace; [done|]. intros id row. simpl.
  rewrite elem_of_app, list_elem_of_singleton. by intros [?|?].
Qed.

Lemma store_fits_enqueued (msg : task_message) (w : world) :
  store_fits w → store_fits (enqueued msg w).
Proof. by apply store_fits_trace. Qed.

(** The gateway half of C2. *)
Lemma async_keeps_fit (e : async_env) (filename : option string)
    (content : string) (query : option string) (w : world) :
  store_fits w →
  store_fits (analyze_async DATA_DIR e filename content query w).2.
Proof.
  intros Hw. destruct (not_a_pdf filename) eqn:Hpdf.
  { by rewrite analyze_async_rejects. }
  rewrite analyze_async_run by done.
  destruct (a_write_fault e); [by apply store_fits_logged_write|].
  pose proof (store_fits_written (upload_path DATA_DIR (a_uuid e)) content w Hw)
    as Hw1.
  destruct (a_commit_new_fault e); [done|].
  destruct (bool_decide _); [done|].
  set (row := new_row _ _ _).
  assert (store_fits (committed (a_uuid e) row
                        (written (upload_path DATA_DIR (a_uuid e)) content w)))
    as Hw2 by by apply store_fits_committed.
  destruct (a_delay_fault e) as [ex|]; [|by apply store_fits_enqueued].
  destruct (is_Exception ex); [|done].
  destruct (a_commit_failed_fault e); [done|]. cbn [snd].
  apply store_fits_after_cleanup. by apply store_fits_committed.
Qed.

(** C2, as the code has it.  If the result and the error of every row fit
    its status, they still do after the asynchronous endpoint, and after
    the task when the job it is run on is not yet terminal (PENDING or
    PROCESSING) -- in the store and in every row that a commit wrote on
    the way. *)
Theorem outcome_fits_kept (te : CeleryTasks.env)
    (job_id path tquery : string) (orig : option string)
    (ae : async_env) (filename : option string) (content : string)
    (query : option string) (w : world) :
  store_fits w →
  ((∀ job, w_db w !! job_id = Some job →
           JobStatus.terminal (AnalysisJob.status job) = false) →
   store_fits (CeleryTasks.run_analysis_task te job_id path tquery orig w).2)
  ∧ store_fits (analyze_async DATA_DIR ae filename content query w).2.
Proof.
  intros Hw. split.
  - by apply task_keeps_fit.
  - by apply async_keeps_fit.
Qed.

(** C10, as the code has it.  When the broker refuses the job that
    [analyze_async] has just stored -- [delay] raises an [Exception] -- and
    the commit that follows goes well, the row stays, FAILED, with an error
    message that begins "Failed to enqueue:"; one removal of the upload is
    attempted, after which the file is gone, or still there if the removal
    was refused; nothing is queued, the request is answered with the status
    503, and a later poll of the job finds it, FAILED, with that message. *)
Theorem enqueue_failure_recorded (e : async_env) (filename : option string)
    (content : string) (query : option string) (w : world) (ex : exc) :
  not_a_pdf filename = false →
  a_write_fault e = None →
  a_commit_new_fault e = None →
  w_db w !! a_uuid e = None →
  a_delay_fault e = Some ex →
  is_Exception ex = true →
  a_commit_failed_fault e = None →
  let path := upload_path DATA_DIR (a_uuid e) in
  let rw := analyze_async DATA_DIR e filename content query w in
  rw.1 = Raise (HTTPException 503 "Queue unavailable; try /analyze/sync")
  ∧ (∃ row, w_db rw.2 !! a_uuid e = Some row
            ∧ AnalysisJob.status row = JobStatus.FAILED
            ∧ AnalysisJob.error_message row
              = Some ("Failed to enqueue:" +:+ " " +:+ str ex)
            ∧ AnalysisJob.result_text row = None)
  ∧ removals path rw.2 = S (removals path w)
  ∧ (a_remove_fault e = None → Os.exists_ (w_fs rw.2) path = false)
  ∧ (∀ msg, a_remove_fault e = Some msg → Os.isfile (w_fs rw.2) path = true)
  ∧ w_queue rw.2 = w_queue w
  ∧ ∃ resp, get_analysis_result None (a_uuid e) rw.2 = (Ret resp, rw.2)
            ∧ pr_status resp = "failed"
            ∧ pr_error resp = Some ("Failed to enqueue: " +:+ str ex).
Proof.
  intros Hpdf Hw Hc Hfresh Hd Hex Hc2. simpl.
  rewrite analyze_async_run by done.
  rewrite Hw, Hc, Hfresh, Hd, Hex, Hc2.
  rewrite bool_decide_eq_false_2 by by intros [? ?].
  cbn [fst snd].
  pose proof (upload_path_truthy (a_uuid e)) as Hpath.
  set (path := upload_path DATA_DIR (a_uuid e)) in *.
  set (row := unqueued_row ex _).
  set (w3 := committed (a_uuid e) row _).
  assert (Os.isfile (w_fs w3) path = true) as Hfile
    by by apply written_isfile.
  assert (w_db (after_cleanup (a_remove_fault e) path w3) !! a_uuid e
          = Some row) as Hrow.
  { rewrite after_cleanup_db. apply lookup_insert_eq. }
  split; [done|]. split; [by exists row|].
  split; [|split; [|split; [|split]]].
  - rewrite after_cleanup_removals, (isfile_exists _ _ Hfile).
    unfold removals, w3. simpl. rewrite !count_snoc. simpl. lia.
  - intros ->. by apply after_cleanup_gone.
  - intros msg ->. by rewrite after_cleanup_refused.
  - by rewrite after_cleanup_queue.
  - unfold get_analysis_result. unfold_prims. rewrite Hrow.
    eexists. split; [reflexivity|]. done.
Qed.

End Gateway.

(** ** The statements at concrete surroundings *)

Section Instances.
Import CeleryTasks Main Tools.

Lemma one_job_fits (job : AnalysisJob.t) (fs : gmap string fnode) :
  outcome_fits job = true → store_fits (mkWorld {[ "42" := job ]} fs [] []).
Proof.
  intros Hjob. split.
  - intros id row. cbn [w_db]. by intros [_ <-]%lookup_singleton_Some.
  - intros id row. cbn [w_trace]. by intros H%elem_of_nil.
Qed.

Lemma fresh_world_fits : store_fits Sample.fresh_world.
Proof. by apply one_job_fits. Qed.

Lemma completed_world_fits : store_fits Sample.completed_world.
Proof. by apply one_job_fits. Qed.

Lemma fresh_world_job (job : AnalysisJob.t) :
  w_db Sample.fresh_world !! "42" = Some job → job = Sample.pending_job.
Proof.
  change (w_db Sample.fresh_world)
    with ({[ "42" := Sample.pending_job ]} : gmap string AnalysisJob.t).
  by intros [_ <-]%lookup_singleton_Some.
Qed.

Lemma cleanup_after_processing_witness :
  removals Sample.pdf_path
    (run_analysis_task Sample.quiet "42" Sample.pdf_path
       "Summarize this report" (Some "report.pdf") Sample.fresh_world).2
  = 1
  ∧ removals (upload_path "data" "42")
      (analyze_sync "data" Sample.sync_quiet (Some "report.pdf") "%PDF-1.7"
         (Some "Summarize this report") Sample.empty_world).2
    = 1.
Proof.
  pose proof (cleanup_after_processing "data" Sample.quiet "42"
                Sample.pdf_path "Summarize this report" (Some "report.pdf")
                Sample.sync_quiet (Some "report.pdf") "%PDF-1.7"
                (Some "Summarize this report") Sample.fresh_world) as [Ht _].
  pose proof (cleanup_after_processing "data" Sample.quiet "42"
                Sample.pdf_path "Summarize this report" (Some "report.pdf")
                Sample.sync_quiet (Some "report.pdf") "%PDF-1.7"
                (Some "Summarize this report") Sample.empty_world) as [_ Hs].
  split.
  - refine (proj1 (Ht _)). vm_compute. reflexivity.
  - refine (proj1 (Hs _ _)); reflexivity.
Defined.

(** C1, as the spec has it, fails: when the file system refuses the
    removal, the task completes the job, the one [os.remove] is attempted,
    and the file is still there. *)
Lemma refused_removal_leaves_file :
  let w := Sample.fresh_world in
  let rw := run_analysis_task Sample.remove_denied "42" Sample.pdf_path
              "Summarize this report" (Some "report.pdf") w in
  Os.isfile (w_fs w) Sample.pdf_path = true
  ∧ rw.1 = Ret (ResultJob true "42")
  ∧ status_of rw.2 "42" = Some JobStatus.COMPLETED
  ∧ removals Sample.pdf_path rw.2 = 1
  ∧ Os.exists_ (w_fs rw.2) Sample.pdf_path = true.
Proof. vm_compute. repeat split. Qed.

Lemma outcome_fits_kept_witness :
  store_fits
    (run_analysis_task Sample.quiet "42" Sample.pdf_path
       "Summarize this report" (Some "report.pdf") Sample.fresh_world).2
  ∧ store_fits
      (analyze_async "data" Sample.broker_down (Some "report.pdf")
         "%PDF-1.7" (Some "Summarize this report") Sample.fresh_world).2.
Proof.
  pose proof (outcome_fits_kept "data" Sample.quiet "42" Sample.pdf_path
                "Summarize this report" (Some "report.pdf")
                Sample.broker_down (Some "report.pdf") "%PDF-1.7"
                (Some "Summarize this report") Sample.fresh_world
                fresh_world_fits) as [Ht Ha].
  split; [|exact Ha]. apply Ht.
  intros job ->%fresh_world_job. reflexivity.
Defined.

(** C2, as the spec has it, fails: the task run on a job that is already
    COMPLETED, its file gone, commits a PROCESSING row that still has the
    result, and leaves a FAILED row with both the result and an error. *)
Lemma rerun_breaks_fit :
  let w := Sample.completed_world in
  let rw := run_analysis_task Sample.quiet "42" Sample.pdf_path
              "Summarize this report" (Some "report.pdf") w in
  store_fits w
  ∧ EvCommit "42" (processing_row Sample.completed_job) ∈ w_trace rw.2
  ∧ outcome_fits (processing_row Sample.completed_job) = false
  ∧ status_of rw.2 "42" = Some JobStatus.FAILED
  ∧ AnalysisJob.result_text <$> w_db rw.2 !! "42"
    = Some (Some "Revenue grew 12%.")
  ∧ AnalysisJob.error_message <$> w_db rw.2 !! "42"
    = Some (Some "File not found: data/uploads/financial_document_42.pdf")
  ∧ ¬ store_fits rw.2.
Proof.
  split; [exact completed_world_fits|].
  split; [vm_compute; apply list_elem_of_here|].
  split; [reflexivity|]. split; [vm_compute; reflexivity|].
  split; [vm_compute; reflexivity|]. split; [vm_compute; reflexivity|].
  intros [Hdb _].
  specialize (Hdb "42" (failed_row ("File not found: " +:+ Sample.pdf_path)
                          Sample.completed_job)).
  assert (outcome_fits (failed_row ("File not found: " +:+ Sample.pdf_path)
                          Sample.completed_job) = true) as H; [|done].
  apply Hdb. vm_compute. reflexivity.
Qed.

Lemma non_pdf_upload_rejected_witness :
  analyze_async "data" Sample.async_quiet (Some "notes.txt") "hello"
    (Some "Summarize this report") Sample.empty_world
  = (Raise (HTTPException 400 "A PDF file is required."), Sample.empty_world).
Proof.
  refine (proj2 (non_pdf_upload_rejected "data" Sample.sync_quiet
                   Sample.async_quiet (Some "notes.txt") "hello"
                   (Some "Summarize this report") Sample.empty_world _)).
  apply not_a_pdf_spec. reflexivity.
Defined.

Lemma blank_query_defaults_witness :
  (analyze_async "data" Sample.async_quiet (Some "report.pdf") "%PDF-1.7"
     (Some "   ") Sample.empty_world).1
  = Ret (queued_response "42")
  ∧ AnalysisJob.query <$>
      w_db (analyze_async "data" Sample.async_quiet (Some "report.pdf")
              "%PDF-1.7" (Some "   ") Sample.empty_world).2 !! "42"
    = Some (Some DEFAULT_QUERY).
Proof.
  pose proof (blank_query_defaults "data" Sample.sync_quiet Sample.async_quiet
                (Some "report.pdf") "%PDF-1.7" (Some "   ")
                Sample.empty_world) as H.
  destruct H as [_ (_ & _ & Hjob & Hret)]; [reflexivity|].
  assert ((analyze_async "data" Sample.async_quiet (Some "report.pdf")
             "%PDF-1.7" (Some "   ") Sample.empty_world).1
          = Ret (queued_response "42")) as Hr.
  { apply Hret; reflexivity. }
  split; [exact Hr|].
  destruct (Hjob _ Hr) as [(row & Hrow & Hq) _]. simpl in Hrow.
  by rewrite Hrow; simpl; rewrite Hq.
Defined.

Lemma enqueue_failure_recorded_witness :
  (analyze_async "data" Sample.broker_down (Some "report.pdf") "%PDF-1.7"
     (Some "Summarize this report") Sample.empty_world).1
  = Raise (HTTPException 503 "Queue unavailable; try /analyze/sync").
Proof.
  refine (proj1 (enqueue_failure_recorded "data" Sample.broker_down
                   (Some "report.pdf") "%PDF-1.7"
                   (Some "Summarize this report") Sample.empty_world
                   (Exc "Connection refused") _ _ _ _ _ _ _));
    reflexivity.
Defined.

(** C10, as the spec has it, fails: with the broker down and the removal
    refused, the request is answered 503 and the job is FAILED, but the
    saved upload is still on disk. *)
Lemma unqueued_upload_not_removed :
  let path := upload_path "data" "42" in
  let rw := analyze_async "data" Sample.broker_down_remove_denied
              (Some "report.pdf") "%PDF-1.7" (Some "Summarize this report")
              Sample.empty_world in
  rw.1 = Raise (HTTPException 503 "Queue unavailable; try /analyze/sync")
  ∧ status_of rw.2 "42" = Some JobStatus.FAILED
  ∧ removals path rw.2 = 1
  ∧ Os.isfile (w_fs rw.2) path = true.
Proof. vm_compute. repeat split. Qed.

End Instances.

(** * Further properties *)

(** ** Strings, again *)

Section MoreStringFacts.

Lemma app_length (s t : string) :
  String.length (s +:+ t) = String.length s + String.length t.
Proof. induction s as [|c s IH]; [done|]. rewrite app_cons. simpl. by rewrite IH. Qed.

(** a common ending can be cancelled *)
Lemma app_inj_r (s1 s2 t : string) : s1 +:+ t = s2 +:+ t → s1 = s2.
Proof.
  revert s2. induction s1 as [|c s1 IH]; intros [|c' s2] H.
  - done.
  - apply (f_equal String.length) in H.
    rewrite app_nil_l, app_cons in H. simpl in H. rewrite app_length in H. lia.
  - apply (f_equal String.length) in H.
    rewrite app_nil_l, app_cons in H. simpl in H. rewrite app_length in H. lia.
  - rewrite !app_cons in H. injection H as -> H. f_equal. by apply IH.
Qed.

Lemma all_chars_app (p : ascii → bool) (s t : string) :
  all_chars p (s +:+ t) = all_chars p s && all_chars p t.
Proof.
  induction s as [|c s IH]; [done|]. rewrite app_cons. simpl.
  by rewrite IH, andb_assoc.
Qed.

Lemma rstrip_cons_keep (c : ascii) (r : string) :
  isspace c = false → rstrip (String c r) = String c (rstrip r).
Proof. intros H. simpl. by rewrite H, andb_false_r. Qed.

Lemma rstrip_idemp (s : string) : rstrip (rstrip s) = rstrip s.
Proof.
  induction s as [|c r IH]; [done|]. simpl.
  destruct (negb (truthy (rstrip r)) && isspace c) eqn:E; [done|].
  simpl. by rewrite IH, E.
Qed.

(** what [lstrip] returns does not start with white space *)
Lemma lstrip_head (s : string) :
  match lstrip s with String c _ => isspace c = false | "" => True end.
Proof.
  induction s as [|c r IH]; [done|]. simpl.
  destruct (isspace c) eqn:E; [done|]. done.
Qed.

Lemma lstrip_fixed (s : string) :
  match s with String c _ => isspace c = false | "" => True end →
  lstrip s = s.
Proof. destruct s as [|c r]; [done|]. simpl. by intros ->. Qed.

(** [strip] is idempotent: what it returns has no white space left at
    either end *)
Lemma strip_idemp (s : string) : strip (strip s) = strip s.
Proof.
  unfold strip.
  assert (lstrip (rstrip (lstrip s)) = rstrip (lstrip s)) as ->.
  { pose proof (lstrip_head s) as H. destruct (lstrip s) as [|c r]; [done|].
    rewrite rstrip_cons_keep by done. apply lstrip_fixed. done. }
  apply rstrip_idemp.
Qed.

End MoreStringFacts.

(** ** tools.py, again *)

Section MoreExtractor.
Import Tools.

Lemma without_nl_squeeze (s : string) :
  without_nl (squeeze_newlines s) = without_nl s.
Proof.
  induction s as [|c r IH]; [done|]. simpl.
  destruct (is_nl c) eqn:Ec; simpl.
  - destruct (starts_nl r); simpl; [done|]. by rewrite Ec.
  - by rewrite Ec, IH.
Qed.

Lemma squeeze_length (s : string) :
  String.length (squeeze_newlines s) ≤ String.length s.
Proof.
  induction s as [|c r IH]; [done|]. simpl.
  destruct (is_nl c && starts_nl r); simpl; lia.
Qed.

(** The loop of the extractor deletes line breaks and nothing else: the
    other characters of the page stay, in their order; a page without two
    line breaks in a row is left as it is; and collapsing twice is
    collapsing once. *)
Theorem collapse_page_only_drops_newlines (content : string) :
  without_nl (collapse_page content) = without_nl content
  ∧ String.length (collapse_page content) ≤ String.length content
  ∧ (contains_nlnl content = false ↔ collapse_page content = content)
  ∧ collapse_page (collapse_page content) = collapse_page content.
Proof.
  rewrite !collapse_page_squeeze. split; [apply without_nl_squeeze|].
  split; [apply squeeze_length|]. split.
  - split; [apply squeeze_fixed|]. intros <-. apply squeeze_no_nlnl.
  - apply squeeze_fixed, squeeze_no_nlnl.
Qed.

Lemma squeeze_all_space (s : string) :
  all_chars isspace s = true → all_chars isspace (squeeze_newlines s) = true.
Proof.
  induction s as [|c r IH]; [done|]. simpl.
  intros [Hc Hr]%andb_true_iff.
  destruct (is_nl c && starts_nl r); simpl; [by apply IH|].
  by rewrite Hc, IH.
Qed.

Lemma page_texts_all_space (docs : list Document) :
  Forall (λ data, all_chars isspace (page_string data) = true) docs →
  all_chars isspace (page_texts docs) = true.
Proof.
  induction 1 as [|data docs Hd _ IH]; [done|]. simpl.
  unfold page_text. rewrite !all_chars_app, IH.
  unfold page_string in Hd. by rewrite squeeze_all_space.
Qed.

(** the extractor on an existing file whose pages the loader returned *)
Lemma read_pages (isfile : string → bool)
    (load : string → outcome (list Document)) (path : string)
    (docs : list Document) :
  path ≠ "" → isfile path = true → load path = Ret docs →
  read_financial_document isfile load path
  = Ret (str_or (strip (page_texts docs)) NO_TEXT).
Proof.
  intros Hpath Hfile Hload. unfold read_financial_document.
  rewrite Hfile, Hload. destruct path; [done|]. simpl.
  by rewrite fold_add_page, app_nil_l.
Qed.

(** A document without pages, or whose pages hold white space only, gives
    the text "(No text extracted from PDF)". *)
Theorem blank_document_gives_sentinel (isfile : string → bool)
    (load : string → outcome (list Document)) (path : string)
    (docs : list Document) :
  path ≠ "" → isfile path = true → load path = Ret docs →
  Forall (λ data, all_chars isspace (page_string data) = true) docs →
  read_financial_document isfile load path = Ret NO_TEXT.
Proof.
  intros Hpath Hfile Hload Hdocs.
  rewrite (read_pages isfile load path docs) by done.
  apply page_texts_all_space, strip_blank in Hdocs. by rewrite Hdocs.
Qed.

Lemma blank_document_gives_sentinel_witness :
  read_financial_document (λ _, true)
    (λ _, Ret [ {| page_content := None |};
                {| page_content := Some ("  " +:+ nl +:+ nl) |} ])
    "scan.pdf"
  = Ret NO_TEXT.
Proof.
  apply (blank_document_gives_sentinel (λ _, true)
           (λ _, Ret [ {| page_content := None |};
                       {| page_content := Some ("  " +:+ nl +:+ nl) |} ])
           "scan.pdf"
           [ {| page_content := None |};
             {| page_content := Some ("  " +:+ nl +:+ nl) |} ]).
  - discriminate.
  - reflexivity.
  - reflexivity.
  - repeat constructor.
Defined.

(** Whatever the pages, the text the extractor returns for an existing file
    has no white space at its ends: stripping it again changes nothing. *)
Theorem extracted_text_is_stripped (isfile : string → bool)
    (load : string → outcome (list Document)) (path : string)
    (docs : list Document) :
  path ≠ "" → isfile path = true → load path = Ret docs →
  ∃ text, read_financial_document isfile load path = Ret text
          ∧ strip text = text.
Proof.
  intros Hpath Hfile Hload.
  rewrite (read_pages isfile load path docs) by done.
  eexists. split; [reflexivity|]. unfold str_or.
  destruct (truthy (strip (page_texts docs))); [apply strip_idemp|].
  by vm_compute.
Qed.

Lemma extracted_text_is_stripped_witness :
  ∃ text,
    read_financial_document (λ _, true)
      (λ _, Ret [ {| page_content := Some "  Net income  " |} ]) "q3.pdf"
    = Ret text
    ∧ strip text = text.
Proof.
  apply (extracted_text_is_stripped (λ _, true)
           (λ _, Ret [ {| page_content := Some "  Net income  " |} ]) "q3.pdf"
           [ {| page_content := Some "  Net income  " |} ]).
  - discriminate.
  - reflexivity.
  - reflexivity.
Defined.

End MoreExtractor.

(** ** celery_tasks.py, again *)

Section MoreTask.
Import CeleryTasks.

(** the body of the task, call site by call site *)
Lemma try_block_run (e : env) (job_id path query : string) (w : world) :
  try_block e job_id path query w =
  match query_fault e with
  | Some ex => (Raise ex, w)
  | None =>
      match w_db w !! job_id with
      | None => (Ret (ResultError false (Some "Job not found")), w)
      | Some job =>
          match commit_processing_fault e with
          | Some ex => (Raise ex, w)
          | None =>
              let w0 := committed job_id (processing_row job) w in
              let w1 := logged (EvCrew query path) w0 in
              if Os.isfile (w_fs w) path then
                match crew_result e with
                | Raise ex =>
                    if is_Exception ex then
                      match commit_final_fault e with
                      | None => (Ret (ResultJob false job_id),
                                 committed job_id (failed_row (str ex) job) w1)
                      | Some ex' => (Raise ex', w1)
                      end
                    else (Raise ex, w1)
                | Ret result =>
                    match commit_final_fault e with
                    | None => (Ret (ResultJob true job_id),
                               committed job_id (completed_row result job) w1)
                    | Some ex' => (Raise ex', w1)
                    end
                end
              else
                match commit_missing_fault e with
                | None =>
                    (Ret (ResultError false
                            (Some ("File not found: " +:+ path))),
                     committed job_id
                       (failed_row ("File not found: " +:+ path) job) w0)
                | Some ex => (Raise ex, w0)
                end
          end
      end
  end.
Proof.
  destruct (query_fault e) as [ex|] eqn:Hq.
  { by apply try_block_query_fault. }
  destruct (w_db w !! job_id) as [job|] eqn:Hjob.
  2: { by apply try_block_not_found. }
  destruct (commit_processing_fault e) as [ex|] eqn:Hc1.
  { by eapply try_block_commit_fault. }
  destruct (Os.isfile (w_fs w) path) eqn:Hfile.
  - by rewrite (try_block_crew e job_id path query w job).
  - by rewrite (try_block_missing e job_id path query w job).
Qed.

(** opens every case of one run of the task *)
Ltac task_cases e w job_id path :=
  rewrite run_analysis_task_run, try_block_run;
  destruct (query_fault e) as [?ex|] eqn:?Hq;
    [|destruct (w_db w !! job_id) as [?job|] eqn:?Hjob;
      [destruct (commit_processing_fault e) as [?ex|] eqn:?Hc1;
        [|destruct (Os.isfile (w_fs w) path) eqn:?Hfile;
          [destruct (crew_result e) as [?result|?ex] eqn:?Hcrew;
            [destruct (commit_final_fault e) as [?ex|] eqn:?Hc3
            |destruct (is_Exception ex) eqn:?Hex;
              [destruct (commit_final_fault e) as [?ex|] eqn:?Hc3|]]
          |destruct (commit_missing_fault e) as [?ex|] eqn:?Hc2]]
      |]];
  cbn [fst snd].

Lemma count_removals_snoc (p path : string) (trace : list event) :
  count (is_remove p) (trace ++ [EvRemove path])
  = count (is_remove p) trace + (if bool_decide (path = p) then 1 else 0).
Proof. by rewrite count_snoc. Qed.

Lemma after_cleanup_removals_any (fault : option string) (path p : string)
    (w : world) :
  removals p (after_cleanup fault path w)
  = removals p w
    + (if bool_decide (path = p) && Os.exists_ (w_fs w) path then 1 else 0).
Proof.
  unfold after_cleanup, removals.
  destruct (Os.exists_ (w_fs w) path); simpl.
  - rewrite count_removals_snoc. by rewrite andb_true_r.
  - rewrite andb_false_r. lia.
Qed.

Lemma after_cleanup_fs_other (fault : option string) (path p : string)
    (w : world) :
  p ≠ path → w_fs (after_cleanup fault path w) !! p = w_fs w !! p.
Proof.
  intros Hne. unfold after_cleanup.
  destruct (Os.exists_ (w_fs w) path); [|done]. simpl.
  destruct fault; [done|].
  destruct (w_fs w !! path) as [[content|]|]; try done.
  by rewrite lookup_delete_ne.
Qed.

Lemma after_cleanup_fs_sub (fault : option string) (path p : string)
    (w : world) (node : fnode) :
  w_fs (after_cleanup fault path w) !! p = Some node → w_fs w !! p = Some node.
Proof.
  unfold after_cleanup.
  destruct (Os.exists_ (w_fs w) path); [|done]. simpl.
  destruct fault; [done|].
  destruct (w_fs w !! path) as [[content|]|]; try done.
  rewrite lookup_delete_Some. by intros [_ ?].
Qed.

(** When the crew answers -- the job found, its file on disk, the store
    calls going well -- the task returns ok, and the job is COMPLETED with
    the answer as its result and without an error, whatever error the row
    had before; the crew was called once. *)
Theorem crew_answer_completes_job (e : env) (job_id path query : string)
    (orig : option string) (w : world) (job : AnalysisJob.t) (result : string) :
  w_db w !! job_id = Some job →
  Os.isfile (w_fs w) path = true →
  store_up e →
  crew_result e = Ret result →
  let rw := run_analysis_task e job_id path query orig w in
  rw.1 = Ret (ResultJob true job_id)
  ∧ (∃ row, w_db rw.2 !! job_id = Some row
            ∧ AnalysisJob.status row = JobStatus.COMPLETED
            ∧ AnalysisJob.result_text row = Some result
            ∧ AnalysisJob.error_message row = None)
  ∧ crew_calls rw.2 = S (crew_calls w).
Proof.
  intros Hjob Hfile (Hq & Hc1 & _ & Hc3) Hcrew. simpl.
  rewrite run_analysis_task_run, try_block_run.
  rewrite Hq, Hjob, Hc1, Hfile, Hcrew, Hc3. cbn [fst snd].
  split; [done|]. split.
  - eexists. rewrite after_cleanup_db. split; [apply lookup_insert_eq|done].
  - rewrite after_cleanup_crew_calls. unfold crew_calls. simpl.
    rewrite !count_snoc. simpl. lia.
Qed.

Lemma crew_answer_completes_job_witness :
  (run_analysis_task Sample.quiet "42" Sample.pdf_path "Summarize this report"
     (Some "report.pdf") Sample.fresh_world).1
  = Ret (ResultJob true "42").
Proof.
  refine (proj1 (crew_answer_completes_job Sample.quiet "42" Sample.pdf_path
                   "Summarize this report" (Some "report.pdf")
                   Sample.fresh_world Sample.pending_job "Revenue grew 12%."
                   _ _ _ _)).
  - vm_compute. reflexivity.
  - vm_compute. reflexivity.
  - repeat split.
  - reflexivity.
Defined.

(** What the task returns agrees with what it stored, whatever the
    surroundings do: [{"ok": True, ...}] is returned only with the job
    COMPLETED, [{"ok": False, "job_id": ...}] only with the job FAILED, and
    [{"ok": False, "error": ...}] only when there is no such job -- nothing
    stored -- or with the job FAILED with that very error message. *)
Theorem task_result_matches_store (e : env) (job_id path query : string)
    (orig : option string) (w : world) :
  let rw := run_analysis_task e job_id path query orig w in
  match rw.1 with
  | Ret (ResultJob ok id) =>
      id = job_id
      ∧ status_of rw.2 job_id
        = Some (if ok then JobStatus.COMPLETED else JobStatus.FAILED)
  | Ret (ResultError ok err) =>
      ok = false
      ∧ ((err = Some "Job not found" ∧ w_db w !! job_id = None
          ∧ w_db rw.2 = w_db w)
         ∨ (status_of rw.2 job_id = Some JobStatus.FAILED
            ∧ AnalysisJob.error_message <$> w_db rw.2 !! job_id = Some err))
  | Raise _ => True
  end.
Proof.
  simpl. task_cases e w job_id path; try done;
    unfold status_of; rewrite ?after_cleanup_db; simpl;
    rewrite ?lookup_insert_eq; simpl; try done.
  - split; [done|]. by right.
  - split; [done|]. by left.
Qed.

(** The task touches its own job and its own file only: the other rows and
    the other paths are as before, no file appears or changes, the queue is
    as before, and a job that was not there is not created. *)
Theorem task_touches_only_its_job (e : env) (job_id path query : string)
    (orig : option string) (w : world) :
  let rw := run_analysis_task e job_id path query orig w in
  (∀ id, id ≠ job_id → w_db rw.2 !! id = w_db w !! id)
  ∧ (w_db w !! job_id = None → w_db rw.2 = w_db w)
  ∧ (∀ p, p ≠ path → w_fs rw.2 !! p = w_fs w !! p)
  ∧ (∀ p node, w_fs rw.2 !! p = Some node → w_fs w !! p = Some node)
  ∧ w_queue rw.2 = w_queue w.
Proof.
  simpl. rewrite run_analysis_task_run. cbn [fst snd].
  split; [|split; [|split; [|split]]].
  - intros id Hne. rewrite after_cleanup_db.
    destruct (try_block_world e job_id path query w)
      as [->|(job & _ & [->|[->|[->|(row & _ & ->)]]])]; simpl;
      by rewrite ?lookup_insert_ne.
  - intros Hnone. rewrite after_cleanup_db.
    destruct (try_block_world e job_id path query w)
      as [->|(job & Hjob & _)]; [done|congruence].
  - intros p Hne. by rewrite after_cleanup_fs_other, try_block_fs.
  - intros p node H%after_cleanup_fs_sub. by rewrite try_block_fs in H.
  - rewrite after_cleanup_queue.
    by destruct (try_block_world e job_id path query w)
      as [->|(job & _ & [->|[->|[->|(row & _ & ->)]]])].
Qed.

(** The task never deletes a job and never changes its recorded file path,
    original file name or query -- also when it is called with another
    query or file name than the row has. *)
Theorem task_keeps_job_inputs (e : env) (job_id path query : string)
    (orig : option string) (w : world) (job : AnalysisJob.t) :
  w_db w !! job_id = Some job →
  let rw := run_analysis_task e job_id path query orig w in
  ∃ row, w_db rw.2 !! job_id = Some row
         ∧ AnalysisJob.file_path row = AnalysisJob.file_path job
         ∧ AnalysisJob.original_filename row = AnalysisJob.original_filename job
         ∧ AnalysisJob.query row = AnalysisJob.query job.
Proof.
  intros Hjob0. simpl. rewrite run_analysis_task_run. cbn [fst snd].
  rewrite after_cleanup_db.
  destruct (try_block_world e job_id path query w)
    as [->|(job' & Hjob & Hw)]; [by exists job|].
  assert (job' = job) as -> by congruence.
  destruct Hw as [->|[->|[->|(row & Hrow & ->)]]]; simpl;
    rewrite ?lookup_insert_eq; try (eexists; split; [reflexivity|done]).
  destruct Hrow as [[r ->]|[m ->]]; eexists; (split; [reflexivity|done]).
Qed.

Lemma task_keeps_job_inputs_witness :
  ∃ row,
    w_db (run_analysis_task Sample.crew_down "42" Sample.pdf_path
            "Another question" None Sample.fresh_world).2 !! "42" = Some row
    ∧ AnalysisJob.file_path row = Sample.pdf_path
    ∧ AnalysisJob.original_filename row = Some "report.pdf"
    ∧ AnalysisJob.query row = Some "Summarize this report".
Proof.
  apply (task_keeps_job_inputs Sample.crew_down "42" Sample.pdf_path
           "Another question" None Sample.fresh_world Sample.pending_job).
  vm_compute. reflexivity.
Defined.

Lemma elem_of_snoc (trace : list event) (ev ev' : event) :
  ev ∈ trace ++ [ev'] ↔ ev ∈ trace ∨ ev = ev'.
Proof. by rewrite elem_of_app, list_elem_of_singleton. Qed.

(** Every row the task commits is a row of its own job with a status other
    than PENDING; and once the first commit went through, the stored job is
    not PENDING either. *)
Theorem task_never_writes_pending (e : env) (job_id path query : string)
    (orig : option string) (w : world) :
  let rw := run_analysis_task e job_id path query orig w in
  (∀ id row, EvCommit id row ∈ w_trace rw.2 →
             EvCommit id row ∈ w_trace w
             ∨ (id = job_id ∧ AnalysisJob.status row ≠ JobStatus.PENDING))
  ∧ (query_fault e = None → commit_processing_fault e = None →
     is_Some (w_db w !! job_id) →
     ∃ st, status_of rw.2 job_id = Some st ∧ st ≠ JobStatus.PENDING).
Proof.
  simpl. split.
  - intros id row. rewrite run_analysis_task_run. cbn [fst snd].
    rewrite after_cleanup_commits.
    destruct (try_block_world e job_id path query w)
      as [->|(job & _ & [->|[->|[->|(r & Hr & ->)]]])]; simpl;
      rewrite ?elem_of_snoc; [by left|..].
    + intros [?|[= -> ->]]; [by left|by right].
    + intros [[?|[= -> ->]]|[= -> ->]]; [by left|by right|by right].
    + intros [[?|[= -> ->]]|[=]]; [by left|by right].
    + intros [[[?|[= -> ->]]|[=]]|[= -> ->]]; [by left|by right|].
      right. split; [done|]. by destruct Hr as [[? ->]|[? ->]].
  - intros Hq Hc1 [job Hjob]. unfold status_of.
    rewrite run_analysis_task_run, try_block_run, Hq, Hjob, Hc1.
    destruct (Os.isfile (w_fs w) path).
    + destruct (crew_result e) as [r|ex];
        [|destruct (is_Exception ex)];
        try destruct (commit_final_fault e); cbn [fst snd];
        rewrite after_cleanup_db; simpl; rewrite lookup_insert_eq;
        by eexists.
    + destruct (commit_missing_fault e); cbn [fst snd];
        rewrite after_cleanup_db; simpl; rewrite lookup_insert_eq;
        by eexists.
Qed.

(** The crew is called at most once in a run, with the query and the path
    the task was given, and exactly when the lookup and the first commit
    went through, the job was found and its file is on disk. *)
Theorem task_calls_crew_once (e : env) (job_id path query : string)
    (orig : option string) (w : world) :
  let rw := run_analysis_task e job_id path query orig w in
  (crew_calls rw.2 = crew_calls w ∨ crew_calls rw.2 = S (crew_calls w))
  ∧ (crew_calls rw.2 = S (crew_calls w) ↔
     query_fault e = None ∧ is_Some (w_db w !! job_id)
     ∧ commit_processing_fault e = None ∧ Os.isfile (w_fs w) path = true)
  ∧ (∀ q p, EvCrew q p ∈ w_trace rw.2 →
            EvCrew q p ∈ w_trace w ∨ (q = query ∧ p = path)).
Proof.
  simpl. split; [|split].
  - task_cases e w job_id path; rewrite after_cleanup_crew_calls;
      unfold crew_calls; simpl; rewrite ?count_snoc; simpl;
      (by left; lia) || (right; lia).
  - task_cases e w job_id path; rewrite after_cleanup_crew_calls;
      unfold crew_calls; simpl; rewrite ?count_snoc; simpl;
      (split; [intros ?|intros (? & [? ?] & ? & ?)]);
      try discriminate; try lia; repeat split; by eauto.
  - intros q p. rewrite run_analysis_task_run. cbn [fst snd].
    intros [H|[=]]%after_cleanup_trace. revert H.
    destruct (try_block_world e job_id path query w)
      as [->|(job & _ & [->|[->|[->|(r & _ & ->)]]])]; simpl;
      rewrite ?elem_of_snoc; [by left|..].
    + intros [?|[=]]; by left.
    + intros [[?|[=]]|[=]]; by left.
    + intros [[?|[=]]|[= -> ->]]; [by left|by right].
    + intros [[[?|[=]]|[= -> ->]]|[=]]; [by left|by right].
Qed.

Lemma task_removal_count_any (e : env) (job_id path query : string)
    (orig : option string) (w : world) (p : string) :
  removals p (run_analysis_task e job_id path query orig w).2
  = removals p w
    + (if bool_decide (path = p) && Os.exists_ (w_fs w) path then 1 else 0).
Proof.
  rewrite run_analysis_task_run. cbn [fst snd].
  by rewrite after_cleanup_removals_any, try_block_removals, try_block_fs.
Qed.

(** [os.remove] is called at most once in a run, and on the path the task
    was given only: once if something exists there as the task starts, not
    at all otherwise -- however the task ends. *)
Theorem task_removal_count (e : env) (job_id path query : string)
    (orig : option string) (w : world) :
  let rw := run_analysis_task e job_id path query orig w in
  removals path rw.2
  = removals path w + (if Os.exists_ (w_fs w) path then 1 else 0)
  ∧ ∀ p, p ≠ path → removals p rw.2 = removals p w.
Proof.
  simpl. split.
  - rewrite task_removal_count_any. by rewrite bool_decide_eq_true_2.
  - intros p Hne. rewrite task_removal_count_any.
    rewrite bool_decide_eq_false_2 by done. simpl. lia.
Qed.

(** When the path the task is given names a directory, the job fails with
    "File not found: <path>"; the clean-up still calls [os.remove] on the
    directory, the call fails, and the file system stays as it was. *)
Theorem directory_path_fails_job (e : env) (job_id path query : string)
    (orig : option string) (w : world) (job : AnalysisJob.t) :
  w_db w !! job_id = Some job →
  path ≠ "" →
  w_fs w !! path = Some Directory →
  store_up e →
  let rw := run_analysis_task e job_id path query orig w in
  rw.1 = Ret (ResultError false (Some ("File not found: " +:+ path)))
  ∧ status_of rw.2 job_id = Some JobStatus.FAILED
  ∧ removals path rw.2 = S (removals path w)
  ∧ w_fs rw.2 = w_fs w.
Proof.
  intros Hjob Hpath Hdir (Hq & Hc1 & Hc2 & _). simpl.
  assert (truthy path = true) as Ht by by destruct path.
  assert (Os.isfile (w_fs w) path = false) as Hfile.
  { unfold Os.isfile. by rewrite Hdir, andb_false_r. }
  assert (Os.exists_ (w_fs w) path = true) as Hex.
  { unfold Os.exists_. rewrite Ht, Hdir. by apply bool_decide_eq_true. }
  split; [|split; [|split]].
  - rewrite run_analysis_task_run, try_block_run.
    by rewrite Hq, Hjob, Hc1, Hfile, Hc2.
  - rewrite run_analysis_task_run, try_block_run.
    rewrite Hq, Hjob, Hc1, Hfile, Hc2. unfold status_of. cbn [fst snd].
    rewrite after_cleanup_db. simpl. by rewrite lookup_insert_eq.
  - rewrite task_removal_count_any, Hex, bool_decide_eq_true_2 by done.
    simpl. lia.
  - rewrite run_analysis_task_run. cbn [fst snd]. unfold after_cleanup.
    rewrite !try_block_fs, Hex, Hdir. simpl. by destruct (remove_fault e).
Qed.

Lemma directory_path_fails_job_witness :
  w_fs (run_analysis_task Sample.quiet "42" Sample.pdf_path
          "Summarize this report" (Some "report.pdf")
          (mkWorld {[ "42" := Sample.pending_job ]}
                   {[ Sample.pdf_path := Directory ]} [] [])).2
  = {[ Sample.pdf_path := Directory ]}.
Proof.
  refine (proj2 (proj2 (proj2
    (directory_path_fails_job Sample.quiet "42" Sample.pdf_path
       "Summarize this report" (Some "report.pdf")
       (mkWorld {[ "42" := Sample.pending_job ]}
                {[ Sample.pdf_path := Directory ]} [] [])
       Sample.pending_job _ _ _ _)))).
  - vm_compute. reflexivity.
  - discriminate.
  - vm_compute. reflexivity.
  - repeat split.
Defined.

End MoreTask.

(** ** main.py, again *)

Section MoreGateway.
Import Main.

Variable DATA_DIR : string.

Ltac crew_count :=
  unfold crew_calls, removals; simpl; rewrite ?count_snoc; simpl; lia.

Lemma status_value_inj (s1 s2 : JobStatus.t) :
  JobStatus.value s1 = JobStatus.value s2 → s1 = s2.
Proof. by destruct s1, s2. Qed.

(** What a poll answers.  It changes nothing.  For an unknown id it raises
    404.  For a known job it returns the id, the status (whose string tells
    the status apart), the recorded query and file name; the key "analysis"
    exactly when the job is COMPLETED, holding its result; and the key
    "error" exactly when the job is FAILED with a non-empty error message,
    holding that message. *)
Theorem poll_reports_row (job_id : string) (w : world) :
  let rp := get_analysis_result None job_id w in
  rp.2 = w
  ∧ (w_db w !! job_id = None →
     rp.1 = Raise (HTTPException 404 "Job not found"))
  ∧ (∀ job, w_db w !! job_id = Some job →
       ∃ resp, rp.1 = Ret resp
         ∧ pr_job_id resp = job_id
         ∧ (∀ s, pr_status resp = JobStatus.value s ↔ AnalysisJob.status job = s)
         ∧ pr_query resp = AnalysisJob.query job
         ∧ pr_file_processed resp = AnalysisJob.original_filename job
         ∧ (∀ a, pr_analysis resp = Some a ↔
                 AnalysisJob.status job = JobStatus.COMPLETED
                 ∧ AnalysisJob.result_text job = a)
         ∧ (∀ m, pr_error resp = Some m ↔
                 AnalysisJob.status job = JobStatus.FAILED
                 ∧ AnalysisJob.error_message job = Some m ∧ m ≠ "")).
Proof.
  simpl. unfold get_analysis_result. unfold_prims.
  destruct (w_db w !! job_id) as [job|]; simpl.
  - split; [done|]. split; [done|]. intros ? [= <-].
    eexists. split; [reflexivity|]. simpl.
    split; [done|]. split; [|split; [done|split; [done|split]]].
    + intros s. split; [by intros ?%status_value_inj|by intros ->].
    + intros a. case_bool_decide as Hs.
      * split; [by intros [= <-]|by intros [_ <-]].
      * split; [done|by intros [? _]].
    + intros m. case_bool_decide as Hs; simpl.
      * destruct (AnalysisJob.error_message job) as [[|c msg]|]; simpl.
        -- split; [done|]. by intros (_ & [= <-] & ?).
        -- split; [by intros [= <-]|by intros (_ & [= <-] & _)].
        -- split; [done|by intros (_ & ? & _)].
      * split; [done|by intros [? _]].
  - split; [done|]. split; [done|]. done.
Qed.

(** The asynchronous endpoint queues a job only when its row and its file
    are in place.  If it returns, exactly one message was added to the
    queue, the returned id is the message's, the id was free before, the
    row under it is PENDING with the path, the file name and the query of
    the message, the path is the upload path of the id and names a file;
    if it raises, the queue is as before. *)
Theorem queued_job_is_stored (e : async_env) (filename : option string)
    (content : string) (query : option string) (w : world) :
  let ra := analyze_async DATA_DIR e filename content query w in
  (∀ resp, ra.1 = Ret resp →
     ∃ msg, w_queue ra.2 = w_queue w ++ [msg]
       ∧ resp = queued_response (tm_job_id msg)
       ∧ w_db w !! tm_job_id msg = None
       ∧ w_db ra.2 !! tm_job_id msg
         = Some (new_row (tm_file_path msg) (tm_original_filename msg)
                         (tm_query msg))
       ∧ tm_file_path msg = upload_path DATA_DIR (tm_job_id msg)
       ∧ w_fs ra.2 !! tm_file_path msg = Some (RegularFile content)
       ∧ Os.isfile (w_fs ra.2) (tm_file_path msg) = true)
  ∧ (∀ ex, ra.1 = Raise ex → w_queue ra.2 = w_queue w).
Proof.
  simpl. destruct (not_a_pdf filename) eqn:Hpdf.
  { rewrite analyze_async_rejects by done. simpl. by split. }
  rewrite analyze_async_run by done.
  destruct (a_write_fault e); [by split|].
  destruct (a_commit_new_fault e); [by split|].
  destruct (w_db w !! a_uuid e) as [old|] eqn:Hold.
  { rewrite bool_decide_eq_true_2 by by eexists. by split. }
  rewrite bool_decide_eq_false_2 by by intros [? ?].
  destruct (a_delay_fault e) as [ex|].
  - destruct (is_Exception ex); [|by split].
    destruct (a_commit_failed_fault e); [by split|].
    split; [done|]. intros _ _. cbn [snd]. by rewrite after_cleanup_queue.
  - split; [|done]. intros ? [= <-]. cbn [snd]. eexists.
    split; [reflexivity|]. simpl. rewrite lookup_insert_eq.
    repeat split; try done.
    + apply lookup_insert_eq.
    + unfold Os.isfile. by rewrite upload_path_truthy, lookup_insert_eq.
Qed.

(** The asynchronous endpoint leaves what is there alone: whatever happens,
    every row that existed is still there, unchanged -- also a row that has
    the id drawn for the new job --, every file other than the upload is as
    before, and the crew is not called. *)
Theorem async_keeps_existing_rows (e : async_env) (filename : option string)
    (content : string) (query : option string) (w : world) :
  let ra := analyze_async DATA_DIR e filename content query w in
  (∀ id row, w_db w !! id = Some row → w_db ra.2 !! id = Some row)
  ∧ (∀ id, id ≠ a_uuid e → w_db ra.2 !! id = w_db w !! id)
  ∧ (∀ p, p ≠ upload_path DATA_DIR (a_uuid e) → w_fs ra.2 !! p = w_fs w !! p)
  ∧ crew_calls ra.2 = crew_calls w.
Proof.
  simpl. destruct (not_a_pdf filename) eqn:Hpdf.
  { rewrite analyze_async_rejects by done. done. }
  rewrite analyze_async_run by done.
  set (path := upload_path DATA_DIR (a_uuid e)).
  assert (∀ p, p ≠ path →
            <[path := RegularFile content]> (w_fs w) !! p = w_fs w !! p) as Hfs.
  { intros p Hne. by rewrite lookup_insert_ne. }
  destruct (a_write_fault e) as [[msg|msg part]|].
  { cbn [snd]. repeat split; try done. crew_count. }
  { cbn [snd]. split; [done|]. split; [done|]. split; [|crew_count].
    intros p Hne. simpl. by rewrite lookup_insert_ne. }
  destruct (a_commit_new_fault e).
  { cbn [snd]. repeat split; try done. crew_count. }
  destruct (w_db w !! a_uuid e) as [old|] eqn:Hold.
  { rewrite bool_decide_eq_true_2 by by eexists.
    cbn [snd]. repeat split; try done. crew_count. }
  rewrite bool_decide_eq_false_2 by by intros [? ?].
  assert (∀ (r : AnalysisJob.t) id row,
            w_db w !! id = Some row →
            <[a_uuid e := r]> (w_db w) !! id = Some row) as Hkeep.
  { intros r id row H. rewrite lookup_insert_ne; [done|congruence]. }
  destruct (a_delay_fault e) as [ex|].
  - destruct (is_Exception ex).
    + destruct (a_commit_failed_fault e); cbn [snd].
      * split; [|split; [|split]]; simpl.
        -- intros id row. apply Hkeep.
        -- intros id Hne. by rewrite lookup_insert_ne.
        -- done.
        -- crew_count.
      * split; [|split; [|split]].
        -- intros id row H. rewrite after_cleanup_db. simpl.
           rewrite insert_insert_eq. by apply Hkeep.
        -- intros id Hne. rewrite after_cleanup_db. simpl.
           by rewrite !lookup_insert_ne.
        -- intros p Hne. rewrite after_cleanup_fs_other by done. by apply Hfs.
        -- rewrite after_cleanup_crew_calls. crew_count.
    + cbn [snd]. split; [|split; [|split]]; simpl.
      * intros id row. apply Hkeep.
      * intros id Hne. by rewrite lookup_insert_ne.
      * done.
      * crew_count.
  - cbn [snd]. split; [|split; [|split]]; simpl.
    + intros id row. apply Hkeep.
    + intros id Hne. by rewrite lookup_insert_ne.
    + done.
    + crew_count.
Qed.

(** When the upload cannot be saved, both endpoints answer 500 with
    "Failed to save file: <reason>" and stop there: no row, nothing queued,
    no call of the crew, no removal.  When it was [open] that failed, the
    file system is as before.  When the write failed after [open], the
    partly written upload is left at its path, the other paths being as
    before. *)
Theorem save_failure_stops_request (se : sync_env) (ae : async_env)
    (filename : option string) (content : string) (query : option string)
    (w : world) (fs fa : Os.write_failure) :
  not_a_pdf filename = false →
  s_write_fault se = Some fs →
  a_write_fault ae = Some fa →
  let rs := analyze_sync DATA_DIR se filename content query w in
  let ra := analyze_async DATA_DIR ae filename content query w in
  (rs.1 = Raise (HTTPException 500 ("Failed to save file: " +:+ Os.reason fs))
   ∧ rs.2 = failed_write fs (upload_path DATA_DIR (s_uuid se)) w)
  ∧ (ra.1 = Raise (HTTPException 500 ("Failed to save file: " +:+ Os.reason fa))
     ∧ ra.2 = failed_write fa (upload_path DATA_DIR (a_uuid ae)) w)
  ∧ ∀ f path,
      let w' := failed_write f path w in
      w_db w' = w_db w
      ∧ w_queue w' = w_queue w
      ∧ crew_calls w' = crew_calls w
      ∧ (∀ p, removals p w' = removals p w)
      ∧ (∀ p, p ≠ path → w_fs w' !! p = w_fs w !! p)
      ∧ (∀ msg, f = Os.OpenFailed msg → w_fs w' = w_fs w)
      ∧ (∀ msg partial, f = Os.WriteFailed msg partial →
           w_fs w' !! path = Some (RegularFile partial)).
Proof.
  intros Hpdf Hs Ha. simpl.
  rewrite analyze_sync_run, analyze_async_run by done. rewrite Hs, Ha.
  split; [done|]. split; [done|]. intros f path.
  split; [done|]. split; [done|]. split; [crew_count|].
  split; [intros p; crew_count|]. split; [|split].
  - intros p Hne. destruct f; simpl; [done|]. by rewrite lookup_insert_ne.
  - by intros msg ->.
  - intros msg partial ->. simpl. by rewrite lookup_insert_eq.
Qed.

(** When the row of the new job cannot be stored -- the commit fails, or the
    id drawn is already taken -- the asynchronous endpoint raises, nothing
    is stored or queued, and the upload it had saved is left on disk: no
    removal is attempted. *)
Theorem unstored_job_leaves_upload (e : async_env) (filename : option string)
    (content : string) (query : option string) (w : world) :
  not_a_pdf filename = false →
  a_write_fault e = None →
  is_Some (a_commit_new_fault e) ∨ is_Some (w_db w !! a_uuid e) →
  let path := upload_path DATA_DIR (a_uuid e) in
  let ra := analyze_async DATA_DIR e filename content query w in
  (∃ ex, ra.1 = Raise ex)
  ∧ w_db ra.2 = w_db w
  ∧ w_queue ra.2 = w_queue w
  ∧ w_fs ra.2 !! path = Some (RegularFile content)
  ∧ removals path ra.2 = removals path w.
Proof.
  intros Hpdf Hw Hbad. simpl. rewrite analyze_async_run, Hw by done.
  destruct (a_commit_new_fault e) as [ex|].
  { cbn [fst snd]. split; [by eexists|]. simpl. rewrite lookup_insert_eq.
    repeat split; try done. crew_count. }
  destruct Hbad as [[? [=]]|Hold].
  rewrite bool_decide_eq_true_2 by done.
  cbn [fst snd]. split; [by eexists|]. simpl. rewrite lookup_insert_eq.
  repeat split; try done. crew_count.
Qed.

(** When the handler for a failed enqueue cannot do its work -- [delay]
    raised something outside [Exception], or the handler's own commit
    failed -- the asynchronous endpoint raises that failure instead of 503,
    and the job is left PENDING with its upload on disk and nothing queued:
    no worker will ever pick it up. *)
Theorem unhandled_enqueue_failure (e : async_env) (filename : option string)
    (content : string) (query : option string) (w : world) (ex raised : exc) :
  not_a_pdf filename = false →
  a_write_fault e = None →
  a_commit_new_fault e = None →
  w_db w !! a_uuid e = None →
  a_delay_fault e = Some ex →
  (is_Exception ex = false ∧ raised = ex)
  ∨ (is_Exception ex = true ∧ a_commit_failed_fault e = Some raised) →
  let path := upload_path DATA_DIR (a_uuid e) in
  let ra := analyze_async DATA_DIR e filename content query w in
  ra.1 = Raise raised
  ∧ status_of ra.2 (a_uuid e) = Some JobStatus.PENDING
  ∧ Os.isfile (w_fs ra.2) path = true
  ∧ removals path ra.2 = removals path w
  ∧ w_queue ra.2 = w_queue w.
Proof.
  intros Hpdf Hw Hc Hfresh Hd Hcase. simpl.
  rewrite analyze_async_run, Hw, Hc, Hfresh, Hd by done.
  rewrite bool_decide_eq_false_2 by by intros [? ?].
  pose proof (upload_path_truthy DATA_DIR (a_uuid e)) as Ht.
  destruct Hcase as [[-> ->]|[-> ->]]; cbn [fst snd];
    (split; [done|]); unfold status_of, Os.isfile; simpl;
    rewrite !lookup_insert_eq, Ht; simpl;
    (split; [done|]); (split; [done|]); (split; [crew_count|done]).
Qed.

(** The synchronous endpoint never touches the job store or the queue and
    calls the crew at most once.  When nothing was at the upload path
    before, the removal goes through and no write failed after [open], the
    file system is afterwards what it was before.  When the write of the
    upload fails after [open], the partly written file stays at the upload
    path: no removal is attempted. *)
Theorem sync_leaves_store_alone (e : sync_env) (filename : option string)
    (content : string) (query : option string) (w : world) :
  let upload := upload_path DATA_DIR (s_uuid e) in
  let rs := analyze_sync DATA_DIR e filename content query w in
  w_db rs.2 = w_db w
  ∧ w_queue rs.2 = w_queue w
  ∧ (∀ id row, EvCommit id row ∈ w_trace rs.2 → EvCommit id row ∈ w_trace w)
  ∧ crew_calls rs.2 ≤ S (crew_calls w)
  ∧ (w_fs w !! upload = None →
     s_remove_fault e = None →
     (∀ msg partial, s_write_fault e ≠ Some (Os.WriteFailed msg partial)) →
     w_fs rs.2 = w_fs w)
  ∧ (not_a_pdf filename = false →
     ∀ msg partial, s_write_fault e = Some (Os.WriteFailed msg partial) →
       w_fs rs.2 !! upload = Some (RegularFile partial)
       ∧ removals upload rs.2 = removals upload w).
Proof.
  simpl. destruct (not_a_pdf filename) eqn:Hpdf.
  { rewrite analyze_sync_rejects by done. simpl. repeat split; auto; lia. }
  rewrite analyze_sync_run by done.
  destruct (s_write_fault e) as [f|]; cbn [snd].
  - split; [done|]. split; [done|]. split; [|split; [crew_count|split]].
    + intros id row. simpl. by intros [?|[=]]%elem_of_snoc.
    + intros _ _ Hopen. destruct f as [msg|msg partial]; [done|].
      by destruct (Hopen msg partial).
    + intros _ msg partial [= ->]. simpl. rewrite lookup_insert_eq.
      split; [done|crew_count].
  - rewrite after_cleanup_db, after_cleanup_queue, after_cleanup_crew_calls.
    split; [done|]. split; [done|]. split; [|split; [|split]].
    + intros id row. rewrite after_cleanup_commits. simpl.
      rewrite !elem_of_snoc. by intros [[?|[=]]|[=]].
    + crew_count.
    + intros Hnone -> _. unfold after_cleanup.
      pose proof (upload_path_truthy DATA_DIR (s_uuid e)) as Ht.
      set (path := upload_path DATA_DIR (s_uuid e)) in *.
      assert (Os.exists_
                (w_fs (logged (EvCrew (effective_query query) path)
                         (written path content w))) path = true) as ->.
      { apply isfile_exists. by apply written_isfile. }
      simpl. rewrite lookup_insert_eq. by apply delete_insert_id.
    + done.
Qed.

(** How the synchronous endpoint answers once the upload is saved: with the
    crew's text under "analysis" and the query it used, when the crew
    returns; with 500 and "Error processing document: <str(e)>" when the
    crew raises an [Exception]; and by raising what the crew raised
    otherwise.  In each case the crew was called once, with the query used
    and the path of the upload. *)
Theorem sync_answers (e : sync_env) (filename : option string)
    (content : string) (query : option string) (w : world) :
  not_a_pdf filename = false →
  s_write_fault e = None →
  let rs := analyze_sync DATA_DIR e filename content query w in
  (∀ text, s_crew_result e = Ret text →
     rs.1 = Ret {| sr_status := "success";
                   sr_query := effective_query query;
                   sr_analysis := text;
                   sr_file_processed := filename |})
  ∧ (∀ ex, s_crew_result e = Raise ex → is_Exception ex = true →
       rs.1 = Raise (HTTPException 500
                       ("Error processing document: " +:+ str ex)))
  ∧ (∀ ex, s_crew_result e = Raise ex → is_Exception ex = false →
       rs.1 = Raise ex)
  ∧ crew_calls rs.2 = S (crew_calls w)
  ∧ EvCrew (effective_query query) (upload_path DATA_DIR (s_uuid e))
    ∈ w_trace rs.2.
Proof.
  intros Hpdf Hw. simpl. rewrite analyze_sync_run, Hw by done.
  cbn [fst snd]. unfold sync_answer.
  split; [by intros text ->|]. split; [by intros ex -> ->|].
  split; [by intros ex -> ->|]. split.
  - rewrite after_cleanup_crew_calls. crew_count.
  - unfold after_cleanup. destruct (Os.exists_ _ _); simpl;
      rewrite !elem_of_snoc; auto.
Qed.

End MoreGateway.

Section MoreGatewayInstances.
Import Main.

Lemma save_failure_stops_request_witness :
  (analyze_sync "data" MoreSample.sync_disk_full (Some "report.pdf")
     "%PDF-1.7" None Sample.empty_world).1
  = Raise (HTTPException 500 "Failed to save file: No space left on device").
Proof.
  refine (proj1 (proj1 (save_failure_stops_request "data"
                          MoreSample.sync_disk_full
                          MoreSample.async_disk_full (Some "report.pdf")
                          "%PDF-1.7" None Sample.empty_world
                          (Os.WriteFailed "No space left on device" "%PDF")
                          (Os.WriteFailed "No space left on device" "%PDF")
                          _ _ _)));
    reflexivity.
Defined.

Lemma unstored_job_leaves_upload_witness :
  w_fs (analyze_async "data" Sample.async_quiet (Some "report.pdf")
          "%PDF-1.7" None Sample.fresh_world).2
    !! upload_path "data" "42"
  = Some (RegularFile "%PDF-1.7").
Proof.
  refine (proj1 (proj2 (proj2 (proj2
    (unstored_job_leaves_upload "data" Sample.async_quiet (Some "report.pdf")
       "%PDF-1.7" None Sample.fresh_world _ _ _)))));
    [reflexivity|reflexivity|].
  right. exists Sample.pending_job. vm_compute. reflexivity.
Defined.

Lemma sync_answers_witness :
  (analyze_sync "data" MoreSample.sync_crew_down (Some "report.pdf")
     "%PDF-1.7" None Sample.empty_world).1
  = Raise (HTTPException 500 "Error processing document: quota exceeded").
Proof.
  refine (proj1 (proj2 (sync_answers "data" MoreSample.sync_crew_down
                          (Some "report.pdf") "%PDF-1.7" None
                          Sample.empty_world _ _))
            (Exc "quota exceeded") _ _);
    reflexivity.
Defined.

Lemma unhandled_enqueue_failure_witness :
  status_of
    (analyze_async "data" MoreSample.broker_and_store_down (Some "report.pdf")
       "%PDF-1.7" None Sample.empty_world).2 "42"
  = Some JobStatus.PENDING.
Proof.
  refine (proj1 (proj2
    (unhandled_enqueue_failure "data" MoreSample.broker_and_store_down
       (Some "report.pdf") "%PDF-1.7" None Sample.empty_world
       (Exc "Connection refused") (Exc "database is locked") _ _ _ _ _ _)));
    try reflexivity.
  right. split; reflexivity.
Defined.

End MoreGatewayInstances.

(** ** From the request to the poll *)

Section EndToEnd.
Import CeleryTasks Main.

(** The query both endpoints use is never empty and has no white space at
    its ends; for a field that is not blank it is the field, stripped. *)
Theorem query_is_stripped (query : option string) :
  effective_query query ≠ ""
  ∧ strip (effective_query query) = effective_query query
  ∧ (∀ q, query = Some q → all_chars isspace q = false →
          effective_query query = strip q).
Proof.
  split; [|split].
  - intros H%truthy_false. by rewrite effective_query_truthy in H.
  - unfold effective_query, str_or.
    destruct (truthy (strip _)); [apply strip_idemp|by vm_compute].
  - intros q -> Hq. unfold effective_query. simpl.
    assert (str_or q "" = q) as -> by by destruct q.
    unfold str_or. destruct (truthy (strip q)) eqn:E; [done|].
    apply truthy_false, strip_blank in E. congruence.
Qed.

Lemma os_path_join_relative (a b : string) :
  is_abs b = false →
  os_path_join a b
  = (if negb (truthy a) || endswith a "/" then a else a +:+ "/") +:+ b.
Proof.
  intros H. unfold os_path_join. rewrite H.
  destruct (negb (truthy a) || endswith a "/"); [done|].
  by rewrite app_assoc.
Qed.

(** Two jobs never share an upload path: the path determines the id.  The
    path lies under the upload directory, whatever the id holds. *)
Theorem upload_path_determines_id (DATA_DIR id1 id2 : string) :
  (upload_path DATA_DIR id1 = upload_path DATA_DIR id2 → id1 = id2)
  ∧ ∃ rest, upload_path DATA_DIR id1 = UPLOAD_DIR DATA_DIR +:+ rest.
Proof.
  unfold upload_path.
  rewrite !os_path_join_relative by done. split.
  - intros H. apply String.app_inj in H.
    apply (String.app_inj "financial_document_") in H.
    by apply app_inj_r in H.
  - destruct (negb _ || _); [by eexists|].
    eexists. by rewrite app_assoc.
Qed.

(** A request that is accepted, taken off the queue by a worker and then
    polled.  With a free id, the store, the broker and the file system
    going well, and the crew answering, the poll finds the job "completed"
    with the crew's text as analysis, the query the endpoint stored and the
    name of the uploaded file, and without an error; the crew was asked the
    stored query about the upload, and the upload is gone. *)
Theorem accepted_job_completes (DATA_DIR : string) (ae : async_env) (te : env)
    (filename : option string) (content : string) (query : option string)
    (w : world) (text : string) :
  not_a_pdf filename = false →
  async_up ae →
  w_db w !! a_uuid ae = None →
  store_up te →
  crew_result te = Ret text →
  remove_fault te = None →
  let ra := analyze_async DATA_DIR ae filename content query w in
  ∃ msg, w_queue ra.2 = w_queue w ++ [msg]
    ∧ let rt := deliver te msg ra.2 in
      rt.1 = Ret (ResultJob true (a_uuid ae))
      ∧ (get_analysis_result None (a_uuid ae) rt.2).1
        = Ret {| pr_job_id := a_uuid ae;
                 pr_status := "completed";
                 pr_query := Some (effective_query query);
                 pr_file_processed := filename;
                 pr_analysis := Some (Some text);
                 pr_error := None |}
      ∧ EvCrew (effective_query query) (upload_path DATA_DIR (a_uuid ae))
        ∈ w_trace rt.2
      ∧ Os.exists_ (w_fs rt.2) (upload_path DATA_DIR (a_uuid ae)) = false.
Proof.
  intros Hpdf (Hw & Hc & Hd) Hfresh (Hq & Hc1 & _ & Hc3) Hcrew Hrm. simpl.
  rewrite analyze_async_run, Hw, Hc, Hfresh, Hd by done.
  rewrite bool_decide_eq_false_2 by by intros [? ?].
  cbn [fst snd]. eexists. split; [reflexivity|].
  unfold deliver. cbn [tm_job_id tm_file_path tm_query tm_original_filename].
  pose proof (upload_path_truthy DATA_DIR (a_uuid ae)) as Ht.
  set (path := upload_path DATA_DIR (a_uuid ae)) in *.
  set (w2 := enqueued _ _).
  assert (Os.isfile (w_fs w2) path = true) as Hfile
    by by apply written_isfile.
  rewrite run_analysis_task_run, try_block_run, Hq, Hc1, Hrm.
  assert (w_db w2 !! a_uuid ae
          = Some (new_row path filename (effective_query query))) as ->
    by apply lookup_insert_eq.
  rewrite Hfile, Hcrew, Hc3. cbn [fst snd].
  split; [done|]. split; [|split].
  - unfold get_analysis_result. unfold_prims.
    rewrite after_cleanup_db. simpl. by rewrite lookup_insert_eq.
  - unfold after_cleanup. destruct (Os.exists_ _ _); simpl;
      rewrite !elem_of_snoc; auto 6.
  - by apply after_cleanup_gone.
Qed.

Lemma accepted_job_completes_witness :
  ∃ msg,
    w_queue (analyze_async "data" Sample.async_quiet (Some "report.pdf")
               "%PDF-1.7" (Some " Summarize this report ")
               Sample.empty_world).2 = [] ++ [msg]
    ∧ (deliver Sample.quiet msg
         (analyze_async "data" Sample.async_quiet (Some "report.pdf")
            "%PDF-1.7" (Some " Summarize this report ")
            Sample.empty_world).2).1
      = Ret (ResultJob true "42").
Proof.
  destruct (accepted_job_completes "data" Sample.async_quiet Sample.quiet
              (Some "report.pdf") "%PDF-1.7" (Some " Summarize this report ")
              Sample.empty_world "Revenue grew 12%.")
    as (msg & Hmsg & Hrun & _); try reflexivity; try (repeat split).
  exists msg. split; [exact Hmsg|exact Hrun].
Defined.

(** The same request when the crew raises an [Exception]: the poll finds the
    job "failed", without analysis, and with [str] of the exception as
    error -- unless that string is empty, in which case the answer has no
    error at all; the upload is gone all the same. *)
Theorem accepted_job_fails (DATA_DIR : string) (ae : async_env) (te : env)
    (filename : option string) (content : string) (query : option string)
    (w : world) (ex : exc) :
  not_a_pdf filename = false →
  async_up ae →
  w_db w !! a_uuid ae = None →
  store_up te →
  crew_result te = Raise ex →
  is_Exception ex = true →
  remove_fault te = None →
  let ra := analyze_async DATA_DIR ae filename content query w in
  ∃ msg, w_queue ra.2 = w_queue w ++ [msg]
    ∧ let rt := deliver te msg ra.2 in
      rt.1 = Ret (ResultJob false (a_uuid ae))
      ∧ (get_analysis_result None (a_uuid ae) rt.2).1
        = Ret {| pr_job_id := a_uuid ae;
                 pr_status := "failed";
                 pr_query := Some (effective_query query);
                 pr_file_processed := filename;
                 pr_analysis := None;
                 pr_error := if truthy (str ex) then Some (str ex) else None |}
      ∧ Os.exists_ (w_fs rt.2) (upload_path DATA_DIR (a_uuid ae)) = false.
Proof.
  intros Hpdf (Hw & Hc & Hd) Hfresh (Hq & Hc1 & _ & Hc3) Hcrew Hex Hrm. simpl.
  rewrite analyze_async_run, Hw, Hc, Hfresh, Hd by done.
  rewrite bool_decide_eq_false_2 by by intros [? ?].
  cbn [fst snd]. eexists. split; [reflexivity|].
  unfold deliver. cbn [tm_job_id tm_file_path tm_query tm_original_filename].
  pose proof (upload_path_truthy DATA_DIR (a_uuid ae)) as Ht.
  set (path := upload_path DATA_DIR (a_uuid ae)) in *.
  set (w2 := enqueued _ _).
  assert (Os.isfile (w_fs w2) path = true) as Hfile
    by by apply written_isfile.
  rewrite run_analysis_task_run, try_block_run, Hq, Hc1, Hrm.
  assert (w_db w2 !! a_uuid ae
          = Some (new_row path filename (effective_query query))) as ->
    by apply lookup_insert_eq.
  rewrite Hfile, Hcrew, Hex, Hc3. cbn [fst snd].
  split; [done|]. split.
  - unfold get_analysis_result. unfold_prims.
    rewrite after_cleanup_db. simpl. rewrite lookup_insert_eq. simpl.
    by destruct (truthy (str ex)).
  - by apply after_cleanup_gone.
Qed.

Lemma accepted_job_fails_witness :
  ∃ msg,
    w_queue (analyze_async "data" Sample.async_quiet (Some "report.pdf")
               "%PDF-1.7" None Sample.empty_world).2 = [] ++ [msg]
    ∧ (deliver Sample.crew_down msg
         (analyze_async "data" Sample.async_quiet (Some "report.pdf")
            "%PDF-1.7" None Sample.empty_world).2).1
      = Ret (ResultJob false "42").
Proof.
  destruct (accepted_job_fails "data" Sample.async_quiet Sample.crew_down
              (Some "report.pdf") "%PDF-1.7" None
              Sample.empty_world (Exc "quota exceeded"))
    as (msg & Hmsg & Hrun & _); try reflexivity; try (repeat split).
  exists msg. split; [exact Hmsg|exact Hrun].
Defined.

End EndToEnd.

(** ** Start-up: check_python.py, config.py, agents.py *)

Section Startup.

Lemma tuple_lt_spec (a b : nat * nat) :
  CheckPython.tuple_lt a b = true ↔ a.1 < b.1 ∨ (a.1 = b.1 ∧ a.2 < b.2).
Proof.
  unfold CheckPython.tuple_lt.
  rewrite orb_true_iff, andb_true_iff, !Nat.ltb_lt, Nat.eqb_eq. done.
Qed.

Lemma tuple_lt_false (a b : nat * nat) :
  CheckPython.tuple_lt a b = false ↔ b.1 < a.1 ∨ (a.1 = b.1 ∧ b.2 ≤ a.2).
Proof.
  rewrite <- not_true_iff_false, tuple_lt_spec. lia.
Qed.

(** The version check lets the interpreter through exactly for Python 3.10
    to 3.13; otherwise it exits with status 1, and with the message that
    asks for "Python 3.10 or newer" exactly for the versions below 3.10. *)
Theorem python_version_gate (v : nat * nat) (version : string) :
  ((∃ out, CheckPython.main v version = CheckPython.Done out)
   ↔ v.1 = 3 ∧ 10 ≤ v.2 ∧ v.2 < 14)
  ∧ (∀ code err, CheckPython.main v version = CheckPython.Exit code err →
       code = 1)
  ∧ ((∃ rest, CheckPython.main v version
              = CheckPython.Exit 1 ("This project requires Python 3.10 or newer."
                                    +:+ rest))
     ↔ v.1 < 3 ∨ (v.1 = 3 ∧ v.2 < 10)).
Proof.
  unfold CheckPython.main.
  destruct (CheckPython.tuple_lt v CheckPython.MIN) eqn:Emin.
  - apply tuple_lt_spec in Emin. cbn [fst snd CheckPython.MIN] in Emin.
    split; [|split].
    + split; [by intros [out [=]]|lia].
    + by intros code err [= <- _].
    + split; [done|]. intros _. by eexists.
  - apply tuple_lt_false in Emin. cbn [fst snd CheckPython.MIN] in Emin.
    destruct (CheckPython.tuple_lt v CheckPython.MAX) eqn:Emax; simpl.
    + apply tuple_lt_spec in Emax. cbn [fst snd CheckPython.MAX] in Emax.
      split; [|split].
      * split; [lia|]. intros _. by eexists.
      * by intros code err [=].
      * split; [by intros [rest [=]]|lia].
    + apply tuple_lt_false in Emax. cbn [fst snd CheckPython.MAX] in Emax.
      split; [|split].
      * split; [by intros [out [=]]|lia].
      * by intros code err [= <- _].
      * split; [|lia]. intros [rest H]. vm_compute in H. discriminate.
Qed.

(** Which model the agents use.  A model named in [LLM_MODEL] is taken as it
    is, with any keys.  Without it, the model is "gemini/gemini-1.5-flash"
    when a non-empty Google key is set and no non-empty OpenAI key is, and
    "gpt-4o-mini" otherwise.  The agents and config.py name different models
    in exactly the former case. *)
Theorem llm_choice (environ : gmap string string) :
  let google_only :=
    Main.opt_truthy (environ !! "GOOGLE_API_KEY")
    && negb (Main.opt_truthy (environ !! "OPENAI_API_KEY")) in
  (∀ m, environ !! "LLM_MODEL" = Some m →
        Agents.llm environ = m ∧ Config.LLM_MODEL environ = m)
  ∧ (environ !! "LLM_MODEL" = None →
     Agents.llm environ
     = (if google_only then "gemini/gemini-1.5-flash" else "gpt-4o-mini")
     ∧ Config.LLM_MODEL environ = "gpt-4o-mini")
  ∧ (Agents.llm environ ≠ Config.LLM_MODEL environ
     ↔ environ !! "LLM_MODEL" = None ∧ google_only = true).
Proof.
  simpl. unfold Agents.llm, Config.LLM_MODEL, Config.getenv_or, Config.getenv.
  destruct (environ !! "LLM_MODEL") as [m|]; simpl;
    destruct (Main.opt_truthy (environ !! "GOOGLE_API_KEY")
              && negb (Main.opt_truthy (environ !! "OPENAI_API_KEY")));
    (split; [|split]); try done.
  - by intros ? [= <-].
  - split; [done|]. by intros [? _].
  - by intros ? [= <-].
  - split; [done|]. by intros [? _].
  - split; [done|]. by intros [_ ?].
Qed.

End Startup.
